(** * Expense tracker (Practical.py): a shallow embedding and its properties

    The program keeps a table of expenses ([self.df]) that mirrors one CSV
    file ([self.file_path]).  The class [ExpenseTracker] is embedded as
    functions over an explicit tracker state: the table, the file and the
    lines printed so far.  Calls into pandas, NumPy and Python's [float]
    are not part of the program; they are the fields of the class [Pandas]
    below and every general theorem holds for all of their behaviours. *)

From Stdlib Require Import List String Ascii Bool ZArith Lia Floats Uint63.
From Stdlib Require Import Permutation.
Import ListNotations.

Local Open Scope string_scope.
Local Open Scope list_scope.

(** ** Values *)

(** What a caller passes for a date, an amount or a filter bound: a string
    (all the menu loop ever passes) or a number. *)
Inductive pyval : Type :=
| PyStr (s : string)
| PyFloat (f : float).

(** Python's truth value of an optional argument: [None], [""], [0.0] and
    [-0.0] are false, everything else (NaN too) is true. *)
Definition truthy (v : option pyval) : bool :=
  match v with
  | None => false
  | Some (PyStr s) => negb (s =? "")
  | Some (PyFloat f) => negb (f =? 0)%float
  end.

(** A [pd.Timestamp], by its calendar fields: zoneless, or with the offset
    of its time zone from UTC (then the fields are those of the wall clock
    in that zone), or [NaT]. *)
Record civil : Type := mkCivil {
  year : Z;
  month : Z;
  day : Z;
  nanos : Z   (* nanoseconds since midnight *)
}.

Inductive Timestamp : Type :=
| NaT
| Ts (c : civil)
| Zoned (c : civil) (utcoffset : Z).   (* offset in nanoseconds *)

Definition civil_compare (a b : civil) : comparison :=
  match (year a ?= year b)%Z with
  | Eq =>
      match (month a ?= month b)%Z with
      | Eq =>
          match (day a ?= day b)%Z with
          | Eq => (nanos a ?= nanos b)%Z
          | c => c
          end
      | c => c
      end
  | c => c
  end.

(** Days from 1970-01-01 to a calendar date, and the instant of a zoned
    timestamp in nanoseconds of UTC. *)
Definition days_from_civil (y m d : Z) : Z :=
  let y := if (m <=? 2)%Z then (y - 1)%Z else y in
  let era := (y / 400)%Z in
  let yoe := (y - era * 400)%Z in
  let doy := ((153 * ((m + 9) mod 12) + 2) / 5 + d - 1)%Z in
  let doe := (yoe * 365 + yoe / 4 - yoe / 100 + doy)%Z in
  (era * 146097 + doe - 719468)%Z.

Definition instant (c : civil) (utcoffset : Z) : Z :=
  (days_from_civil (year c) (month c) (day c) * 86400000000000
   + nanos c - utcoffset)%Z.

(** [x >= y] and [x <= y] on timestamps, where pandas carries the
    comparison out: two zoneless ones by their fields, two zoned ones by
    their instants; every comparison with [NaT] is false.  Between a
    zoneless and a zoned one pandas raises instead (see [date_compares]
    below); the value here is then never used. *)
Definition ts_ge (x y : Timestamp) : bool :=
  match x, y with
  | Ts a, Ts b => match civil_compare a b with Lt => false | _ => true end
  | Zoned a oa, Zoned b ob => (instant b ob <=? instant a oa)%Z
  | _, _ => false
  end.

Definition ts_le (x y : Timestamp) : bool :=
  match x, y with
  | Ts a, Ts b => match civil_compare a b with Gt => false | _ => true end
  | Zoned a oa, Zoned b ob => (instant a oa <=? instant b ob)%Z
  | _, _ => false
  end.

(** One row of the table, with the columns of the CSV header. *)
Record Expense : Type := mkExpense {
  Date : Timestamp;
  Amount : float;
  Category : string;
  Description : string
}.

(** [self.categories] *)
Definition categories : list string :=
  ["Food"; "Transport"; "Utilities"; "Entertainment"].

(** [category in self.categories] and [Series.isin(self.categories)] *)
Definition isin (c : string) (l : list string) : bool :=
  existsb (String.eqb c) l.

(** The exceptions that matter to the program. *)
Inductive exn : Type :=
| FileNotFoundError
| ParserError
| ValueError
| TypeError
| AttributeError.

(** ** The library *)

Class Pandas : Type := {
  (** [pd.to_datetime(x)] on a scalar; [None] stands for [ValueError]. *)
  to_datetime : pyval -> option Timestamp;
  (** [float(s)] on a string; [None] stands for [ValueError]. *)
  float_of_str : string -> option float;
  (** [np.sum] and [np.mean] of a column. *)
  np_sum : list float -> float;
  np_mean : list float -> float;
  (** [.sum()] of one group of a [groupby]. *)
  group_sum : list float -> float;
  (** Whether pandas carries out [df['Date'] >= bound] (or [<=]) for a Date
      column holding these values; [false] stands for the [TypeError] it
      raises between zoneless and zoned values. *)
  date_compares : list Timestamp -> Timestamp -> bool;
  (** Whether a Date column holding these values has the [.dt] accessor;
      [false] stands for the [AttributeError] of a column that is not of a
      datetime type. *)
  has_dt : list Timestamp -> bool;
  (** What [pd.read_csv] followed by [pd.to_datetime] on the Date column
      make of the text that [to_csv] wrote for these rows: the rows as
      they come back, or the exception one of the two raises. *)
  read_back : list Expense -> exn + list Expense
}.

(** ** State *)

(** What the file at [self.file_path] holds.  The text layer of
    [to_csv]/[read_csv] belongs to pandas: [Csv rows] is the text that
    [to_csv] writes for the table [rows], and what reading that text gives
    is the library's [read_back]; [Garbled] is content that is not tabular
    at all. *)
Inductive file : Type :=
| Csv (rows : list Expense)
| Garbled.

(** A printed line.  Number and table rendering belong to Python, so a line
    keeps the values it was formatted from. *)
Inductive line : Type :=
| Text (s : string)
| Removed (invalid_rows : nat)            (* Removed {n} invalid rows *)
| CategoryError (allowed : list string)   (* Error: Category must be one of {...} *)
| Money (label : string) (v : float)      (* {label}: ${v:.2f} *)
| TopCategory (label : option string)     (* Top Spending Category: {label} *)
| Monthly (ym : Z * Z) (v : float)        (* {month}: ${v:.2f} *)
| Frame (rows : list Expense).            (* df.to_string(index=False) *)

Record Tracker : Type := mkTracker {
  df : list Expense;
  disk : option file;   (* [None]: no file at [self.file_path] *)
  stdout : list line
}.

Definition print (l : line) (t : Tracker) : Tracker :=
  mkTracker (df t) (disk t) (stdout t ++ [l]).

Inductive outcome : Type :=
| Returned (t : Tracker)
| Raised (e : exn) (t : Tracker).

(** [pd.read_csv(self.file_path)] with the [pd.to_datetime] of the Date
    column that follows it in [load_data]. *)
Definition read_csv {lib : Pandas} (d : option file) : exn + list Expense :=
  match d with
  | None => inl FileNotFoundError
  | Some Garbled => inl ParserError
  | Some (Csv rows) => read_back rows
  end.

(** The row mask of [load_data]:
    [(df['Amount'] > 0) & (df['Category'].isin(self.categories))] *)
Definition row_ok (r : Expense) : bool :=
  (0 <? Amount r)%float && isin (Category r) categories.

(** ** Grouping *)

(** [df.groupby(key)['Amount'].sum()]: one entry per key present in the
    data, keys ascending; rows whose key is missing (a [NaT] date) belong to
    no group. *)
Section GroupBy.
Context {K : Type} (key_eqb key_ltb : K -> K -> bool).

Fixpoint insert_key (k : K) (ks : list K) : list K :=
  match ks with
  | [] => [k]
  | k' :: rest =>
      if key_eqb k k' then ks
      else if key_ltb k k' then k :: ks
      else k' :: insert_key k rest
  end.

Definition group_keys (ks : list K) : list K :=
  fold_left (fun acc k => insert_key k acc) ks [].

Definition has_key (key : Expense -> option K) (k : K) (r : Expense) : bool :=
  match key r with
  | Some k' => key_eqb k' k
  | None => false
  end.

Definition present_keys (key : Expense -> option K) (rows : list Expense) : list K :=
  flat_map (fun r => match key r with Some k => [k] | None => [] end) rows.

Definition groupby_sum (sum : list float -> float) (key : Expense -> option K)
    (rows : list Expense) : list (K * float) :=
  map (fun k => (k, sum (map Amount (filter (has_key key k) rows))))
      (group_keys (present_keys key rows)).

(** [Series.idxmax()]: the label of the first largest value, NaN values
    skipped; [None] when nothing is left. *)
Fixpoint idxmax_from (best : K * float) (l : list (K * float)) : K :=
  match l with
  | [] => fst best
  | kv :: rest =>
      if (snd best <? snd kv)%float then idxmax_from kv rest
      else idxmax_from best rest
  end.

Definition idxmax (l : list (K * float)) : option K :=
  match filter (fun kv => negb (is_nan (snd kv))) l with
  | [] => None
  | b :: rest => Some (idxmax_from b rest)
  end.
End GroupBy.

Definition category_key (r : Expense) : option string := Some (Category r).

(** [df['Date'].dt.to_period('M')] *)
Definition month_key (r : Expense) : option (Z * Z) :=
  match Date r with
  | NaT => None
  | Ts c => Some (year c, month c)
  | Zoned c _ => Some (year c, month c)
  end.

Definition period_eqb (a b : Z * Z) : bool :=
  (fst a =? fst b)%Z && (snd a =? snd b)%Z.

Definition period_ltb (a b : Z * Z) : bool :=
  (fst a <? fst b)%Z || ((fst a =? fst b)%Z && (snd a <? snd b)%Z).

(** How a call can stop short of its result: with a line it prints before
    returning, or with an exception that nothing catches. *)
Inductive abort : Type :=
| Reported (msg : string)
| Escaped (e : exn).

(** ** The methods of [ExpenseTracker] *)

Section ExpenseTracker.
Context {lib : Pandas}.

(** [load_data] *)
Definition load_data (t : Tracker) : outcome :=
  match read_csv (disk t) with
  | inr rows =>
      (* [rows]: the frame after lines 16 and 17 *)
      let invalid_rows := List.length rows in
      let kept := filter row_ok rows in
      let invalid_rows := invalid_rows - List.length kept in
      let t' := mkTracker kept (disk t) (stdout t) in
      Returned (if (invalid_rows =? 0)%nat then t'
                else print (Removed invalid_rows) t')
  | inl FileNotFoundError =>
      Returned (mkTracker [] (disk t)
                  (stdout t ++ [Text "File not found. Starting with empty data."]))
  | inl e =>
      (* out of line 16 or 17.  After a raise at line 17 [self.df] holds the
         frame as read, its dates still text; no row type here describes
         it and no caller looks at it, so the table is left as it was. *)
      Raised e t
  end.

(** [__init__]: the table starts unset and [load_data] fills it. *)
Definition init (d : option file) : outcome :=
  load_data (mkTracker [] d []).

(** [float(x)] *)
Definition py_float (v : pyval) : option float :=
  match v with
  | PyStr s => float_of_str s
  | PyFloat f => Some f
  end.

(** [self.df.to_csv(self.file_path, index=False)] *)
Definition to_csv (t : Tracker) : Tracker :=
  mkTracker (df t) (Some (Csv (df t))) (stdout t).

(** [add_expense] *)
Definition add_expense (t : Tracker) (date amount : pyval)
    (category description : string) : Tracker :=
  match to_datetime date with
  | None => print (Text "Error: Invalid date or amount") t
  | Some parsed_date =>
      match py_float amount with
      | None => print (Text "Error: Invalid date or amount") t
      | Some amount =>
          if (amount <=? 0)%float then
            print (Text "Error: Amount must be positive") t
          else if negb (isin category categories) then
            print (CategoryError categories) t
          else
            let description :=
              if description =? "" then "No description" else description in
            let new_expense :=
              [mkExpense parsed_date amount category description] in
            let t := mkTracker (df t ++ new_expense) (disk t) (stdout t) in
            print (Text "Expense added!") (to_csv t)
      end
  end.

(** [get_summary] *)
Definition get_summary (t : Tracker) : Tracker :=
  match df t with
  | [] => print (Text "No expenses recorded.") t
  | _ =>
      let total := np_sum (map Amount (df t)) in
      let avg := np_mean (map Amount (df t)) in
      let category_totals :=
        groupby_sum String.eqb String.ltb group_sum category_key (df t) in
      let summary_lines :=
        [Text "Expense Summary:";
         Money "Total Expenses" total;
         Money "Average Expense" avg;
         Text "";
         Text "Expenses by Category:"]
        ++ map (fun ca => Money (fst ca) (snd ca)) category_totals in
      fold_left (fun t l => print l t) summary_lines t
  end.

(** [if x:] on an optional argument: the argument when it is true. *)
Definition supplied (v : option pyval) : option pyval :=
  if truthy v then v else None.

(** [filtered_df['Category'] == category] on one row. *)
Definition category_is (v : pyval) (r : Expense) : bool :=
  match v with
  | PyStr s => Category r =? s
  | PyFloat _ => false
  end.

(** The table [filter_expenses] ends with, or how it stops before.  A
    frame cut down by a mask keeps the type of its Date column, so whether
    a date comparison is carried out is asked of the whole column. *)
Definition filtered (t : Tracker)
    (category start_date end_date min_amount : option pyval)
    : abort + list Expense :=
  let filtered_df := df t in
  let filtered_df :=
    match supplied category with
    | Some category => filter (category_is category) filtered_df
    | None => filtered_df
    end in
  match
    match supplied start_date with
    | Some start_date =>
        match to_datetime start_date with
        | Some start =>
            if date_compares (map Date (df t)) start
            then inr (filter (fun r => ts_ge (Date r) start) filtered_df)
            else inl (Escaped TypeError)
        | None => inl (Reported "Error: Invalid start date")
        end
    | None => inr filtered_df
    end
  with
  | inl e => inl e
  | inr filtered_df =>
      match
        match supplied end_date with
        | Some end_date =>
            match to_datetime end_date with
            | Some end_ =>
                if date_compares (map Date (df t)) end_
                then inr (filter (fun r => ts_le (Date r) end_) filtered_df)
                else inl (Escaped TypeError)
            | None => inl (Reported "Error: Invalid end date")
            end
        | None => inr filtered_df
        end
      with
      | inl e => inl e
      | inr filtered_df =>
          match supplied min_amount with
          | Some min_amount =>
              match py_float min_amount with
              | Some min_amt =>
                  inr (filter (fun r => (min_amt <=? Amount r)%float) filtered_df)
              | None => inl (Reported "Error: Invalid minimum amount")
              end
          | None => inr filtered_df
          end
      end
  end.

(** [filter_expenses]: the state it leaves, and the exception that escapes
    it if one does (nothing has been printed by then). *)
Definition filter_expenses (t : Tracker)
    (category start_date end_date min_amount : option pyval) : Tracker :=
  match filtered t category start_date end_date min_amount with
  | inl (Reported e) => print (Text e) t
  | inl (Escaped _) => t
  | inr [] => print (Text "No expenses found.") t
  | inr filtered_df => print (Frame filtered_df) t
  end.

Definition filter_expenses_raises (t : Tracker)
    (category start_date end_date min_amount : option pyval) : option exn :=
  match filtered t category start_date end_date min_amount with
  | inl (Escaped e) => Some e
  | _ => None
  end.

(** [generate_report]: the state it leaves, and the exception that escapes
    it if one does; the [.dt] of the monthly totals comes before any
    [print]. *)
Definition generate_report (t : Tracker) : Tracker :=
  match df t with
  | [] => print (Text "No expenses to report.") t
  | _ =>
      let total := np_sum (map Amount (df t)) in
      let category_totals :=
        groupby_sum String.eqb String.ltb group_sum category_key (df t) in
      let top_category := idxmax category_totals in
      if has_dt (map Date (df t)) then
        let monthly_totals :=
          groupby_sum period_eqb period_ltb group_sum month_key (df t) in
        let report_lines :=
          [Text "Expense Report";
           Text "==============================";
           Money "Total Expenses" total;
           TopCategory top_category;
           Text "";
           Text "Monthly Spending:"]
          ++ map (fun ma => Monthly (fst ma) (snd ma)) monthly_totals in
        fold_left (fun t l => print l t) report_lines t
      else t
  end.

Definition generate_report_raises (t : Tracker) : option exn :=
  match df t with
  | [] => None
  | _ => if has_dt (map Date (df t)) then None else Some AttributeError
  end.

(** ** What the properties speak of *)

(** The row [add_expense] builds from inputs it has read as [d] and [a]. *)
Definition admitted (d : Timestamp) (a : float) (category description : string)
    : Expense :=
  mkExpense d a category
    (if description =? "" then "No description" else description).

(** Inputs that fail validation: the date or the amount does not read, the
    amount is not above zero by the program's test, or the category is not
    one of the four. *)
Definition validation_fails (date amount : pyval) (category : string) : Prop :=
  to_datetime date = None
  \/ py_float amount = None
  \/ (exists a, py_float amount = Some a /\ (a <=? 0)%float = true)
  \/ isin category categories = false.

(** The lines [add_expense] prints when it turns an input down. *)
Definition rejection (l : line) : bool :=
  match l with
  | Text s =>
      (s =? "Error: Invalid date or amount")
      || (s =? "Error: Amount must be positive")
  | CategoryError _ => true
  | _ => false
  end.

(** The filter as the specification words it: one pass that keeps the rows
    meeting every supplied predicate, where supplied means passed and true
    as a Python value.  A bound that does not read meets no row. *)
Definition meets_category (category : option pyval) (r : Expense) : bool :=
  match supplied category with
  | Some c => category_is c r
  | None => true
  end.

Definition meets_start (start_date : option pyval) (r : Expense) : bool :=
  match supplied start_date with
  | Some v =>
      match to_datetime v with
      | Some start => ts_ge (Date r) start
      | None => false
      end
  | None => true
  end.

Definition meets_end (end_date : option pyval) (r : Expense) : bool :=
  match supplied end_date with
  | Some v =>
      match to_datetime v with
      | Some end_ => ts_le (Date r) end_
      | None => false
      end
  | None => true
  end.

Definition meets_min (min_amount : option pyval) (r : Expense) : bool :=
  match supplied min_amount with
  | Some v =>
      match py_float v with
      | Some min_amt => (min_amt <=? Amount r)%float
      | None => false
      end
  | None => true
  end.

Definition spec_filter (L : list Expense)
    (category start_date end_date min_amount : option pyval) : list Expense :=
  filter (fun r => meets_category category r && meets_start start_date r
                   && meets_end end_date r && meets_min min_amount r) L.

(** Every supplied date bound that reads can be compared with the Date
    column of the table. *)
Definition bounds_compare (t : Tracker) (start_date end_date : option pyval)
    : Prop :=
  (forall v b, supplied start_date = Some v -> to_datetime v = Some b ->
     date_compares (map Date (df t)) b = true)
  /\ (forall v b, supplied end_date = Some v -> to_datetime v = Some b ->
        date_compares (map Date (df t)) b = true).

(** Every supplied bound reads. *)
Definition bounds_read (start_date end_date min_amount : option pyval) : Prop :=
  (forall v, supplied start_date = Some v -> to_datetime v <> None)
  /\ (forall v, supplied end_date = Some v -> to_datetime v <> None)
  /\ (forall v, supplied min_amount = Some v -> py_float v <> None).


(** What [filter_expenses] prints for a table it arrived at. *)
Definition shown (rows : list Expense) : line :=
  match rows with
  | [] => Text "No expenses found."
  | _ => Frame rows
  end.
End ExpenseTracker.


(** Python's [str.isspace] on every character, true of the empty string
    too: the descriptions the specification calls blank. *)
Definition is_space (c : ascii) : bool :=
  let n := nat_of_ascii c in
  ((n =? 32) || ((9 <=? n) && (n <=? 13)) || ((28 <=? n) && (n <=? 31)))%nat.

Fixpoint blank (s : string) : bool :=
  match s with
  | EmptyString => true
  | String c rest => is_space c && blank rest
  end.

(** ** A fragment of the library

    Enough of [pd.to_datetime], [float] and the sums to run the program on
    concrete inputs: ISO dates [YYYY-MM-DD] and UTC moments
    [YYYY-MM-DDTHH:MM:SSZ]; plain decimals, ["nan"] and ["inf"]; sums taken
    left to right with NaN skipped; a Date column in which zoneless and
    zoned values meet is not of a datetime type, does not compare, and
    makes the file written from it unreadable.  On these inputs the fragment returns
    what the library returns; on every other input it raises, which the
    library does not always do, so the examples stay inside the fragment
    or use text that no reading accepts. *)
Module Fragment.

Definition digit (c : ascii) : option Z :=
  let n := Z.of_nat (nat_of_ascii c) in
  if ((48 <=? n) && (n <=? 57))%Z then Some (n - 48)%Z else None.

Fixpoint number (s : string) (acc : Z) : option Z :=
  match s with
  | EmptyString => Some acc
  | String c rest =>
      match digit c with
      | Some d => number rest (10 * acc + d)%Z
      | None => None
      end
  end.

Definition leap (y : Z) : bool :=
  ((y mod 4 =? 0) && negb (y mod 100 =? 0) || (y mod 400 =? 0))%Z.

Definition days_in_month (y m : Z) : Z :=
  if (m =? 2)%Z then (if leap y then 29 else 28)%Z
  else if ((m =? 4) || (m =? 6) || (m =? 9) || (m =? 11))%Z then 30%Z
  else 31%Z.

Definition iso_date (s : string) : option Timestamp :=
  if negb (String.length s =? 10)%nat then None
  else if negb ((substring 4 1 s =? "-") && (substring 7 1 s =? "-")) then None
  else
    match number (substring 0 4 s) 0, number (substring 5 2 s) 0,
          number (substring 8 2 s) 0 with
    | Some y, Some m, Some d =>
        if ((1 <=? m) && (m <=? 12) && (1 <=? d) && (d <=? days_in_month y m))%Z
        then Some (Ts (mkCivil y m d 0))
        else None
    | _, _, _ => None
    end.

(** [YYYY-MM-DDTHH:MM:SSZ]: a moment in UTC. *)
Definition iso_utc (s : string) : option Timestamp :=
  if negb (String.length s =? 20)%nat then None
  else if negb ((substring 10 1 s =? "T") && (substring 13 1 s =? ":")
                && (substring 16 1 s =? ":") && (substring 19 1 s =? "Z"))
  then None
  else
    match iso_date (substring 0 10 s), number (substring 11 2 s) 0,
          number (substring 14 2 s) 0, number (substring 17 2 s) 0 with
    | Some (Ts c), Some h, Some mi, Some se =>
        if ((h <? 24) && (mi <? 60) && (se <? 60))%Z
        then Some (Zoned (mkCivil (year c) (month c) (day c)
                            (((h * 60 + mi) * 60 + se) * 1000000000)) 0)
        else None
    | _, _, _, _ => None
    end.

Definition fragment_to_datetime (v : pyval) : option Timestamp :=
  match v with
  | PyStr s =>
      match iso_date s with
      | Some d => Some d
      | None => iso_utc s
      end
  | PyFloat _ => None
  end.

(** Zoneless and zoned values do not mix; [NaT] goes with both. *)
Definition same_kind (x y : Timestamp) : bool :=
  match x, y with
  | Ts _, Zoned _ _ => false
  | Zoned _ _, Ts _ => false
  | _, _ => true
  end.

Definition uniform (column : list Timestamp) : bool :=
  forallb (fun x => forallb (same_kind x) column) column.

Definition fragment_date_compares (column : list Timestamp) (bound : Timestamp)
    : bool :=
  forallb (fun x => same_kind x bound) column.

Definition fragment_read_back (rows : list Expense) : exn + list Expense :=
  if uniform (map Date rows) then inr rows else inl ValueError.

Definition float_of_Z (n : Z) : float := of_uint63 (Uint63.of_Z n).

(** [digits[.digits]] with an optional minus sign, for at most 18 digits
    after the point and digits that, read as one integer, stay below 2^53:
    then the integer and the power of ten are both floats and their
    quotient is the nearest float.  Longer numerals are left to the
    library. *)
Definition decimal (s : string) : option float :=
  let (neg, body) :=
    match s with
    | String "-"%char rest => (true, rest)
    | _ => (false, s)
    end in
  let (ip, fp) :=
    match index 0 "." body with
    | Some i => (substring 0 i body,
                 substring (S i) (String.length body - S i) body)
    | None => (body, "")
    end in
  if (ip =? "") && (fp =? "") then None
  else
    match number ip 0, number fp 0 with
    | Some a, Some b =>
        let scale := (10 ^ Z.of_nat (String.length fp))%Z in
        let n := (a * scale + b)%Z in
        if ((n <? 2 ^ 53)%Z && (String.length fp <=? 18)%nat) then
          let q := (float_of_Z n / float_of_Z scale)%float in
          Some (if neg then (- q)%float else q)
        else None
    | _, _ => None
    end.

Definition fragment_float_of_str (s : string) : option float :=
  if s =? "nan" then Some nan
  else if s =? "inf" then Some infinity
  else decimal s.

Definition sum_left (xs : list float) : float :=
  fold_left PrimFloat.add (filter (fun x => negb (is_nan x)) xs) 0%float.

Definition mean_left (xs : list float) : float :=
  let kept := filter (fun x => negb (is_nan x)) xs in
  (fold_left PrimFloat.add kept 0 / float_of_Z (Z.of_nat (List.length kept)))%float.

Definition fragment : Pandas :=
  {| to_datetime := fragment_to_datetime;
     float_of_str := fragment_float_of_str;
     np_sum := sum_left;
     np_mean := mean_left;
     group_sum := sum_left;
     date_compares := fragment_date_compares;
     has_dt := uniform;
     read_back := fragment_read_back |}.

End Fragment.

(** A tracker with no file yet and nothing printed. *)
Definition fresh : Tracker := mkTracker [] None [].

(** The ledger of the specification's scenarios: Food 10 in January,
    Food 20 in February, Transport 5 in January. *)
Definition scenario : list Expense :=
  [mkExpense (Ts (mkCivil 2024 1 10 0)) 10 "Food" "lunch";
   mkExpense (Ts (mkCivil 2024 2 3 0)) 20 "Food" "dinner";
   mkExpense (Ts (mkCivil 2024 1 20 0)) 5 "Transport" "bus"].

(** ** Charts and the menu loop *)

(** What [visualize_expenses] hands to matplotlib, subplot by subplot.
    Drawing and the image format belong to matplotlib, so the file
    [expense_dashboard.png] is kept as the figure it was saved from. *)
Record Figure : Type := mkFigure {
  bar_heights : list (string * float);       (* plt.bar(index, values) *)
  bar_texts : list (nat * (float * float));  (* plt.text(i, v + 5, "${v:.2f}") *)
  line_points : list ((Z * Z) * float);      (* plt.plot(months, values) *)
  line_texts : list (nat * (float * float)); (* plt.text(i, v + 5, "${v:.2f}") *)
  pie_wedges : list (string * float);        (* plt.pie(values, labels=index) *)
  hist_values : list float                   (* plt.hist(df['Amount'], bins=10) *)
}.

Class Pyplot : Type := {
  (** Whether pyplot draws and saves the figure; [false] stands for a call
      that raises. *)
  draws : Figure -> bool
}.

(** The tracker together with the image file beside it. *)
Record World : Type := mkWorld {
  tracker : Tracker;
  png : option Figure   (* [None]: no [expense_dashboard.png] *)
}.

(** How a run of the program ends. *)
Inductive crash : Type :=
| EOFError               (* [input] at the end of the input *)
| Uncaught (e : exn)     (* out of the constructor or of a method *)
| PlotError.             (* out of a drawing call of [visualize_expenses] *)

Inductive ending : Type :=
| Exited (w : World)
| Crashed (c : crash) (w : World).

Definition final (e : ending) : World :=
  match e with
  | Exited w => w
  | Crashed _ w => w
  end.

Definition on_tracker (f : Tracker -> Tracker) (w : World) : World :=
  mkWorld (f (tracker w)) (png w).

(** Several [print]s, or the prompts of several [input]s, in a row. *)
Definition say (ls : list line) (w : World) : World :=
  on_tracker (fun t => fold_left (fun t l => print l t) ls t) w.

(** [for i, v in enumerate(values): plt.text(i, v + 5, ...)] *)
Definition texts (values : list float) : list (nat * (float * float)) :=
  combine (seq 0 (List.length values))
          (map (fun v => ((v + 5)%float, v)) values).

Definition menu : list line :=
  [Text (String "010" "Welcome to Expense Tracker");
   Text "1. Add New Expense";
   Text "2. Show Summary";
   Text "3. Filter Expenses";
   Text "4. Show Report";
   Text "5. Create Charts";
   Text "6. Exit";
   Text "Enter choice (1-6): "].

Definition add_prompts : list line :=
  [Text "Enter date (YYYY-MM-DD): ";
   Text "Enter amount: ";
   Text "Enter category (Food/Transport/Utilities/Entertainment): ";
   Text "Enter description: "].

Definition filter_prompts : list line :=
  [Text "Enter category (or press Enter to skip): ";
   Text "Enter start date (YYYY-MM-DD, or Enter to skip): ";
   Text "Enter end date (YYYY-MM-DD, or Enter to skip): ";
   Text "Enter minimum amount (or Enter to skip): "].

Section Program.
Context {lib : Pandas} {plt : Pyplot}.

(** [visualize_expenses]; [inl] when the [.dt] of the monthly sums or a
    pyplot call raises, which happens before anything is saved or
    printed. *)
Definition visualize_expenses (w : World) : World + World :=
  match df (tracker w) with
  | [] => inr (say [Text "No data to visualize."] w)
  | _ =>
      let category_totals :=
        groupby_sum String.eqb String.ltb group_sum category_key (df (tracker w)) in
      let monthly_sums :=
        groupby_sum period_eqb period_ltb group_sum month_key (df (tracker w)) in
      let fig :=
        mkFigure category_totals (texts (map snd category_totals))
                 monthly_sums (texts (map snd monthly_sums))
                 category_totals
                 (map Amount (df (tracker w))) in
      if has_dt (map Date (df (tracker w))) && draws fig then
        inr (say [Text "Charts saved as expense_dashboard.png"]
               (mkWorld (tracker w) (Some fig)))
      else inl w
  end.

(** The exception that escapes when [visualize_expenses] raises. *)
Definition visualize_expenses_crash (w : World) : crash :=
  if has_dt (map Date (df (tracker w))) then PlotError
  else Uncaught AttributeError.

(** The loop of [main], over the lines that [input] will return. *)
Fixpoint menu_loop (stdin : list string) (w : World) : ending :=
  let w := say menu w in
  match stdin with
  | [] => Crashed EOFError w
  | choice :: stdin =>
      if choice =? "1" then
        match stdin with
        | date :: amount :: category :: description :: stdin =>
            menu_loop stdin
              (on_tracker
                 (fun t => add_expense t (PyStr date) (PyStr amount)
                             category description)
                 (say add_prompts w))
        | _ =>
            Crashed EOFError (say (firstn (S (List.length stdin)) add_prompts) w)
        end
      else if choice =? "2" then menu_loop stdin (on_tracker get_summary w)
      else if choice =? "3" then
        match stdin with
        | category :: start_date :: end_date :: min_amount :: stdin =>
            let w := say filter_prompts w in
            match filter_expenses_raises (tracker w)
                    (Some (PyStr category)) (Some (PyStr start_date))
                    (Some (PyStr end_date)) (Some (PyStr min_amount)) with
            | Some e => Crashed (Uncaught e) w
            | None =>
                menu_loop stdin
                  (on_tracker
                     (fun t => filter_expenses t
                                 (Some (PyStr category)) (Some (PyStr start_date))
                                 (Some (PyStr end_date)) (Some (PyStr min_amount)))
                     w)
            end
        | _ =>
            Crashed EOFError (say (firstn (S (List.length stdin)) filter_prompts) w)
        end
      else if choice =? "4" then
        match generate_report_raises (tracker w) with
        | Some e => Crashed (Uncaught e) w
        | None => menu_loop stdin (on_tracker generate_report w)
        end
      else if choice =? "5" then
        match visualize_expenses w with
        | inr w => menu_loop stdin w
        | inl w => Crashed (visualize_expenses_crash w) w
        end
      else if choice =? "6" then Exited (say [Text "Exiting program..."] w)
      else menu_loop stdin (say [Text "Invalid choice. Try again."] w)
  end.

(** [main]: the tracker is built from the file found at ["expenses.csv"],
    then the loop runs. *)
Definition main (csv : option file) (image : option Figure)
    (stdin : list string) : ending :=
  match init csv with
  | Returned t => menu_loop stdin (mkWorld t image)
  | Raised e t => Crashed (Uncaught e) (mkWorld t image)
  end.

(** The worlds a run can pass through from [w0], with the menu choices
    taken on the way (latest first): one constructor for each thing an
    iteration of the loop does. *)
Inductive evolves (w0 : World) : list string -> World -> Prop :=
| ev_start : evolves w0 [] w0
| ev_say cs w ls : evolves w0 cs w -> evolves w0 cs (say ls w)
| ev_add cs w date amount category description :
    evolves w0 cs w ->
    evolves w0 ("1" :: cs)
      (on_tracker
         (fun t => add_expense t (PyStr date) (PyStr amount)
                     category description) w)
| ev_summary cs w :
    evolves w0 cs w -> evolves w0 ("2" :: cs) (on_tracker get_summary w)
| ev_filter cs w category start_date end_date min_amount :
    evolves w0 cs w ->
    evolves w0 ("3" :: cs)
      (on_tracker
         (fun t => filter_expenses t category start_date end_date
                     min_amount) w)
| ev_report cs w :
    evolves w0 cs w -> evolves w0 ("4" :: cs) (on_tracker generate_report w)
| ev_chart cs w w' :
    evolves w0 cs w -> visualize_expenses w = inr w' ->
    evolves w0 ("5" :: cs) w'.
End Program.

(** A pyplot that draws every figure. *)
Definition always_draws : Pyplot := {| draws := fun _ => true |}.

(** ** What the further properties speak of *)

(** A row the program lets into the table: a listed category and an amount
    that its test [amount <= 0] does not turn down. *)
Definition acceptable (r : Expense) : bool :=
  isin (Category r) categories && negb (Amount r <=? 0)%float.

(** The file holds exactly the table in memory. *)
Definition in_sync (t : Tracker) : Prop := disk t = Some (Csv (df t)).

(** The table the constructor builds from what it finds at the path. *)
Definition loaded {lib : Pandas} (csv : option file) : list Expense :=
  match read_csv csv with
  | inr rows => filter row_ok rows
  | inl _ => []
  end.

(** Strictly ascending, for the keys of a [groupby]. *)
Fixpoint ascending {K : Type} (ltb : K -> K -> bool) (ks : list K) : Prop :=
  match ks with
  | [] => True
  | k :: rest => Forall (fun k' => ltb k k' = true) rest /\ ascending ltb rest
  end.

(** Where a float that is not NaN stands among the floats: by sign class
    first, then by exponent and mantissa, mirrored for the negative ones.
    The comparisons of floats are the lexicographic order of these ranks. *)
Definition sf_rank (f : spec_float) : Z * Z * Z :=
  match f with
  | S754_nan => (0, 0, 0)%Z
  | S754_zero _ => (0, 0, 0)%Z
  | S754_infinity true => (-2, 0, 0)%Z
  | S754_infinity false => (2, 0, 0)%Z
  | S754_finite true m e => (-1, - e, - Zpos m)%Z
  | S754_finite false m e => (1, e, Zpos m)%Z
  end.

Definition lex_lt (a b : Z * Z * Z) : Prop :=
  let '(a1, a2, a3) := a in
  let '(b1, b2, b3) := b in
  (a1 < b1 \/ (a1 = b1 /\ (a2 < b2 \/ (a2 = b2 /\ a3 < b3))))%Z.

(** [a] is an earlier moment than [b], field by field. *)
Definition civil_lt (a b : civil) : Prop :=
  (year a < year b
   \/ (year a = year b
       /\ (month a < month b
           \/ (month a = month b
               /\ (day a < day b
                   \/ (day a = day b /\ nanos a < nanos b))))))%Z.


(** The amounts of the rows filed under [k], in the order of the table. *)
Definition amounts_of {K : Type} (key_eqb : K -> K -> bool)
    (key : Expense -> option K) (k : K) (rows : list Expense) : list float :=
  map Amount (filter (has_key key_eqb key k) rows).


(** * Properties *)

(** ** Comparisons with zero *)

Lemma positive_not_leb_zero (a : float) :
  (0 <? a)%float = true -> (a <=? 0)%float = false.
Proof.
  rewrite FloatAxioms.ltb_spec, FloatAxioms.leb_spec. unfold SFltb, SFleb.
  change (Prim2SF 0) with (S754_zero false).
  destruct (Prim2SF a) as [s | s | | s m e]; simpl;
    try destruct s; simpl; congruence.
Qed.

Lemma Prim2SF_nan (a : float) : Prim2SF a = S754_nan -> is_nan a = true.
Proof.
  unfold Prim2SF. destruct (is_nan a); [reflexivity |].
  destruct (PrimFloat.is_zero a); [discriminate |].
  destruct (PrimFloat.is_infinity a); [discriminate |].
  destruct (Z.frexp a) as [r ex].
  destruct (shr_fexp prec emax _ _ _) as [shr e'].
  destruct (shr_m shr); discriminate.
Qed.

(** What passes the test [amount <= 0] of [add_expense]: the positive
    amounts and NaN. *)
Lemma not_leb_zero (a : float) :
  (a <=? 0)%float = false -> (0 <? a)%float = true \/ is_nan a = true.
Proof.
  rewrite FloatAxioms.ltb_spec, FloatAxioms.leb_spec. unfold SFltb, SFleb.
  change (Prim2SF 0) with (S754_zero false).
  destruct (Prim2SF a) as [s | s | | s m e] eqn:E; simpl;
    try destruct s; simpl; try congruence; auto using Prim2SF_nan.
Qed.

(** ** [add_expense] *)

Section AddExpense.
Context {lib : Pandas}.

Lemma add_expense_accepts t date amount category description d a :
  to_datetime date = Some d ->
  py_float amount = Some a ->
  (a <=? 0)%float = false ->
  isin category categories = true ->
  add_expense t date amount category description =
    let rows := df t ++ [admitted d a category description] in
    mkTracker rows (Some (Csv rows)) (stdout t ++ [Text "Expense added!"]).
Proof.
  intros Hd Ha Hpos Hcat. unfold add_expense.
  rewrite Hd, Ha, Hpos, Hcat. reflexivity.
Qed.

(** Every call either turns the input down, printing why and touching
    neither table nor file, or appends one row and rewrites the file. *)
Lemma add_expense_cases t date amount category description :
  (exists l, rejection l = true /\
     add_expense t date amount category description = print l t)
  \/
  (exists d a,
     to_datetime date = Some d /\ py_float amount = Some a /\
     (a <=? 0)%float = false /\ isin category categories = true /\
     add_expense t date amount category description =
       let rows := df t ++ [admitted d a category description] in
       mkTracker rows (Some (Csv rows)) (stdout t ++ [Text "Expense added!"])).
Proof.
  unfold add_expense.
  destruct (to_datetime date) as [d |] eqn:Hd;
    [| left; eexists; split; [| reflexivity]; reflexivity].
  destruct (py_float amount) as [a |] eqn:Ha;
    [| left; eexists; split; [| reflexivity]; reflexivity].
  destruct (a <=? 0)%float eqn:Hpos;
    [left; eexists; split; [| reflexivity]; reflexivity |].
  destruct (isin category categories) eqn:Hcat; simpl;
    [| left; eexists; split; [| reflexivity]; reflexivity].
  right. exists d, a. repeat split; auto.
Qed.

Lemma isin_In (c : string) (l : list string) : isin c l = true -> In c l.
Proof.
  unfold isin. rewrite existsb_exists. intros (x & Hin & Heq).
  apply String.eqb_eq in Heq. congruence.
Qed.

(** X1. What every call guarantees: the state is as before up to one
    printed line, or one row was appended and the file rewritten from the
    table; the row has the date as read, a listed category, a description
    that is not empty, and an amount that is above zero or NaN. *)
Lemma add_expense_total t date amount category description :
  let t' := add_expense t date amount category description in
  (df t' = df t /\ disk t' = disk t)
  \/
  (exists r,
     df t' = df t ++ [r] /\ disk t' = Some (Csv (df t')) /\
     to_datetime date = Some (Date r) /\
     ((0 <? Amount r)%float = true \/ is_nan (Amount r) = true) /\
     In (Category r) categories /\
     Description r <> "").
Proof.
  intros t'. subst t'.
  destruct (add_expense_cases t date amount category description)
    as [[l [_ ->]] | (d & a & Hd & Ha & Hpos & Hcat & ->)].
  - left. split; reflexivity.
  - right. exists (admitted d a category description).
    unfold admitted. cbn [df disk Date Amount Category Description].
    repeat split; auto using not_leb_zero, isin_In.
    destruct (String.eqb_spec description ""); [discriminate | assumption].
Qed.

(** C2. Append atomicity: when validation fails, [add_expense] leaves the
    table and the file as they were and reports the failure by printing one
    error line; nothing is committed in part. *)
Theorem add_expense_failure_is_noop t date amount category description :
  validation_fails date amount category ->
  exists l,
    rejection l = true /\
    add_expense t date amount category description = print l t /\
    df (add_expense t date amount category description) = df t /\
    disk (add_expense t date amount category description) = disk t /\
    stdout (add_expense t date amount category description) = stdout t ++ [l].
Proof.
  intros Hfail.
  destruct (add_expense_cases t date amount category description)
    as [[l [Hl Heq]] | [d [a [Hd [Ha [Hpos [Hcat _]]]]]]].
  - exists l. rewrite Heq. repeat split; assumption.
  - exfalso. destruct Hfail as [H | [H | [[a' [H H']] | H]]]; congruence.
Qed.

(** C5, as amended. Description sentinel: an admitted row carries
    ["No description"] exactly when the description passed is the empty
    string; every other description, blank ones included, is stored as
    passed. *)
Theorem description_sentinel t date amount category description d a :
  to_datetime date = Some d ->
  py_float amount = Some a ->
  (a <=? 0)%float = false ->
  isin category categories = true ->
  exists r,
    df (add_expense t date amount category description) = df t ++ [r] /\
    (description = "" -> Description r = "No description") /\
    (description <> "" -> Description r = description).
Proof.
  intros Hd Ha Hpos Hcat.
  rewrite (add_expense_accepts t _ _ _ description d a Hd Ha Hpos Hcat).
  exists (admitted d a category description). simpl.
  split; [reflexivity |].
  destruct (String.eqb_spec description ""); split; intros; congruence.
Qed.

End AddExpense.

Import Fragment.

Lemma add_expense_failure_is_noop_witness :
  validation_fails (lib := fragment) (PyStr "2024-01-15") (PyStr "-5") "Food" /\
  exists l,
    rejection l = true /\
    add_expense (lib := fragment) fresh (PyStr "2024-01-15") (PyStr "-5") "Food" "x"
      = print l fresh /\
    df (add_expense (lib := fragment) fresh (PyStr "2024-01-15") (PyStr "-5") "Food" "x")
      = df fresh /\
    disk (add_expense (lib := fragment) fresh (PyStr "2024-01-15") (PyStr "-5") "Food" "x")
      = disk fresh /\
    stdout (add_expense (lib := fragment) fresh (PyStr "2024-01-15") (PyStr "-5") "Food" "x")
      = stdout fresh ++ [l].
Proof.
  assert (H : validation_fails (lib := fragment)
                (PyStr "2024-01-15") (PyStr "-5") "Food").
  { right; right; left. exists (-5)%float. split; reflexivity. }
  split; [exact H |].
  exact (add_expense_failure_is_noop (lib := fragment) fresh _ _ _ "x" H).
Defined.

Lemma description_sentinel_witness :
  exists r,
    df (add_expense (lib := fragment) fresh
          (PyStr "2024-01-15") (PyStr "42.50") "Food" "") = df fresh ++ [r] /\
    ("" = "" -> Description r = "No description") /\
    ("" <> "" -> Description r = "").
Proof.
  apply (description_sentinel (lib := fragment) fresh
           (PyStr "2024-01-15") (PyStr "42.50") "Food" ""
           (Ts (mkCivil 2024 1 15 0)) 42.5%float); reflexivity.
Defined.

(** C5, as stated, fails: a description of three spaces is blank, yet the
    row admitted for it carries the three spaces and not the sentinel. *)
Lemma blank_description_is_kept :
  blank "   " = true /\
  map Description
    (df (add_expense (lib := fragment) fresh
           (PyStr "2024-01-15") (PyStr "5") "Food" "   ")) = ["   "] /\
  "   " <> "No description".
Proof. split; [reflexivity | split; [reflexivity | discriminate]]. Qed.

(** C1. Validation totality fails on the amount ["nan"]: [float] reads it,
    the test [amount <= 0] is false of NaN, and the row is appended and
    written although its amount is not above zero; [load_data], whose mask
    asks [Amount > 0], drops the same row when the file is read back. *)
Theorem nan_amount_is_admitted :
  let t := add_expense (lib := fragment) fresh
             (PyStr "2024-01-15") (PyStr "nan") "Food" "x" in
  df t = [mkExpense (Ts (mkCivil 2024 1 15 0)) nan "Food" "x"] /\
  disk t = Some (Csv (df t)) /\
  (0 <? nan)%float = false /\
  load_data (lib := fragment) t
    = Returned (mkTracker [] (disk t) (stdout t ++ [Removed 1])).
Proof. repeat split; reflexivity. Qed.

(** ** [load_data] *)

Section LoadData.
Context {lib : Pandas}.



(** C8. Missing-store recovery: with no file at the path, [load_data]
    returns normally with an empty table, and so does the constructor. *)
Theorem load_data_missing_file rows out :
  load_data (mkTracker rows None out)
    = Returned (mkTracker [] None
                  (out ++ [Text "File not found. Starting with empty data."]))
  /\ init None
    = Returned (mkTracker [] None
                  [Text "File not found. Starting with empty data."])
  /\ (forall t, init None = Returned t -> List.length (df t) = 0%nat).
Proof.
  repeat split. intros t [= <-]. reflexivity.
Qed.


End LoadData.



(** ** [filter_expenses] *)

Lemma filter_and {A : Type} (f g : A -> bool) (l : list A) :
  filter g (filter f l) = filter (fun x => f x && g x) l.
Proof.
  induction l as [| x l IH]; simpl; [reflexivity |].
  destruct (f x); simpl; [destruct (g x) |]; rewrite IH; reflexivity.
Qed.


Section FilterExpenses.
Context {lib : Pandas}.

Lemma supplied_idem v : supplied (supplied v) = supplied v.
Proof. unfold supplied. destruct (truthy v) eqn:E; [rewrite E |]; reflexivity. Qed.

Lemma filter_expenses_shown t category start_date end_date min_amount rows :
  filtered t category start_date end_date min_amount = inr rows ->
  filter_expenses t category start_date end_date min_amount = print (shown rows) t.
Proof. unfold filter_expenses. intros ->. destruct rows; reflexivity. Qed.

(** The successive masks of the program against the single pass of the
    specification. *)
Lemma filtered_spec_filter t category start_date end_date min_amount :
  bounds_read start_date end_date min_amount ->
  bounds_compare t start_date end_date ->
  filtered t category start_date end_date min_amount
    = inr (spec_filter (df t) category start_date end_date min_amount).
Proof.
  intros (Hs & He & Hm) (Hcs & Hce).
  unfold filtered, spec_filter, meets_category, meets_start, meets_end, meets_min.
  destruct (supplied category) as [c |];
    (destruct (supplied start_date) as [s |];
     [specialize (Hs s eq_refl); specialize (Hcs s);
      destruct (to_datetime s) as [start |];
      [rewrite (Hcs start eq_refl eq_refl) | congruence] |]);
    (destruct (supplied end_date) as [e |];
     [specialize (He e eq_refl); specialize (Hce e);
      destruct (to_datetime e) as [end_ |];
      [rewrite (Hce end_ eq_refl eq_refl) | congruence] |]);
    (destruct (supplied min_amount) as [m |];
     [specialize (Hm m eq_refl); destruct (py_float m) as [min_amt |];
      [| congruence] |]);
    f_equal; repeat rewrite filter_and; cbn [andb];
    first [ symmetry; apply filter_true
          | apply filter_ext; intros r;
            rewrite ?andb_true_r, ?andb_assoc; reflexivity ].
Qed.




(** C9. Falsy bounds are absent: a call behaves as the call in which every
    argument that is false as a Python value ([None], the empty string,
    zero) is replaced by [None]; a minimum of [0] in particular applies no
    test to the amounts, where the bound [amount >= 0] would have dropped a
    row with a NaN amount. *)
Theorem falsy_bounds_are_skipped t category start_date end_date min_amount :
  filter_expenses t category start_date end_date min_amount
    = filter_expenses t (supplied category) (supplied start_date)
        (supplied end_date) (supplied min_amount)
  /\ supplied None = None
  /\ supplied (Some (PyStr "")) = None
  /\ supplied (Some (PyFloat 0)) = None
  /\ filter_expenses t category start_date end_date (Some (PyFloat 0))
     = filter_expenses t category start_date end_date None
  /\ (let t_nan := add_expense (lib := fragment) fresh
                      (PyStr "2024-01-15") (PyStr "nan") "Food" "x" in
      filtered t_nan None None None (Some (PyFloat 0)) = inr (df t_nan)
      /\ df t_nan <> []
      /\ filter (fun r => (0 <=? Amount r)%float) (df t_nan) = []).
Proof.
  split.
  { unfold filter_expenses, filtered. rewrite !supplied_idem. reflexivity. }
  repeat split. discriminate.
Qed.

(** ** Derived views *)

Lemma print_all_frame (ls : list line) (t : Tracker) :
  df (fold_left (fun t l => print l t) ls t) = df t /\
  disk (fold_left (fun t l => print l t) ls t) = disk t.
Proof.
  revert t. induction ls as [| l ls IH]; intros t; simpl; [split; reflexivity |].
  destruct (IH (print l t)) as [Hdf Hdisk]. rewrite Hdf, Hdisk.
  split; reflexivity.
Qed.

(** C10. Read-only views: [get_summary], [filter_expenses] and
    [generate_report] leave the table and the file as they found them;
    they only print. *)
Theorem views_are_read_only t category start_date end_date min_amount :
  (df (get_summary t) = df t /\ disk (get_summary t) = disk t) /\
  (df (filter_expenses t category start_date end_date min_amount) = df t /\
   disk (filter_expenses t category start_date end_date min_amount) = disk t) /\
  (df (generate_report t) = df t /\ disk (generate_report t) = disk t).
Proof.
  split; [| split].
  - unfold get_summary. destruct (df t) eqn:E; [split; auto |].
    rewrite <- E. apply print_all_frame.
  - unfold filter_expenses.
    destruct (filtered t category start_date end_date min_amount)
      as [[e | e] | [| r rows]]; split; reflexivity.
  - unfold generate_report. destruct (df t) eqn:E; [split; auto |].
    rewrite <- E. destruct (has_dt _); [apply print_all_frame | split; reflexivity].
Qed.

End FilterExpenses.

(** The scenario [filter(category="Food", min_amount=15)]: only the
    February row is left. *)
Example scenario_filter :
  filter_expenses (lib := fragment) (mkTracker scenario (Some (Csv scenario)) [])
    (Some (PyStr "Food")) None None (Some (PyStr "15"))
  = mkTracker scenario (Some (Csv scenario))
      [Frame [mkExpense (Ts (mkCivil 2024 2 3 0)) 20 "Food" "dinner"]].
Proof. reflexivity. Qed.




(** The scenarios of the summary and of the report, on the fragment's
    sums. *)
Example scenario_summary :
  stdout (get_summary (lib := fragment) (mkTracker scenario None []))
  = [Text "Expense Summary:";
     Money "Total Expenses" 35;
     Money "Average Expense" (35 / 3)%float;
     Text "";
     Text "Expenses by Category:";
     Money "Food" 30;
     Money "Transport" 5].
Proof. reflexivity. Qed.

Example scenario_report :
  stdout (generate_report (lib := fragment) (mkTracker scenario None []))
  = [Text "Expense Report";
     Text "==============================";
     Money "Total Expenses" 35;
     TopCategory (Some "Food");
     Text "";
     Text "Monthly Spending:";
     Monthly (2024, 1)%Z 15;
     Monthly (2024, 2)%Z 20].
Proof. reflexivity. Qed.

(** * Further properties *)

(** ** Printing *)

Lemma print_all_stdout (ls : list line) (t : Tracker) :
  stdout (fold_left (fun t l => print l t) ls t) = stdout t ++ ls.
Proof.
  revert t. induction ls as [| l ls IH]; intros t; simpl.
  - symmetry. apply app_nil_r.
  - rewrite IH. simpl. rewrite <- app_assoc. reflexivity.
Qed.

Lemma say_frame (ls : list line) (w : World) :
  df (tracker (say ls w)) = df (tracker w) /\
  disk (tracker (say ls w)) = disk (tracker w) /\
  png (say ls w) = png w.
Proof.
  unfold say, on_tracker. simpl.
  destruct (print_all_frame ls (tracker w)) as [-> ->]. auto.
Qed.

(** ** The loop of [main] *)

Section Sessions.
Context {lib : Pandas} {plt : Pyplot}.

Lemma visualize_expenses_raises (w w' : World) :
  visualize_expenses w = inl w' -> w' = w.
Proof.
  unfold visualize_expenses. destruct (df (tracker w)); [discriminate |].
  destruct (_ && _); [discriminate | congruence].
Qed.

(** The loop, one iteration unfolded. *)
Lemma menu_loop_eq (stdin : list string) (w : World) :
  menu_loop stdin w =
  let w := say menu w in
  match stdin with
  | [] => Crashed EOFError w
  | choice :: stdin =>
      if choice =? "1" then
        match stdin with
        | date :: amount :: category :: description :: stdin =>
            menu_loop stdin
              (on_tracker
                 (fun t => add_expense t (PyStr date) (PyStr amount)
                             category description)
                 (say add_prompts w))
        | _ =>
            Crashed EOFError (say (firstn (S (List.length stdin)) add_prompts) w)
        end
      else if choice =? "2" then menu_loop stdin (on_tracker get_summary w)
      else if choice =? "3" then
        match stdin with
        | category :: start_date :: end_date :: min_amount :: stdin =>
            let w := say filter_prompts w in
            match filter_expenses_raises (tracker w)
                    (Some (PyStr category)) (Some (PyStr start_date))
                    (Some (PyStr end_date)) (Some (PyStr min_amount)) with
            | Some e => Crashed (Uncaught e) w
            | None =>
                menu_loop stdin
                  (on_tracker
                     (fun t => filter_expenses t
                                 (Some (PyStr category)) (Some (PyStr start_date))
                                 (Some (PyStr end_date)) (Some (PyStr min_amount)))
                     w)
            end
        | _ =>
            Crashed EOFError (say (firstn (S (List.length stdin)) filter_prompts) w)
        end
      else if choice =? "4" then
        match generate_report_raises (tracker w) with
        | Some e => Crashed (Uncaught e) w
        | None => menu_loop stdin (on_tracker generate_report w)
        end
      else if choice =? "5" then
        match visualize_expenses w with
        | inr w => menu_loop stdin w
        | inl w => Crashed (visualize_expenses_crash w) w
        end
      else if choice =? "6" then Exited (say [Text "Exiting program..."] w)
      else menu_loop stdin (say [Text "Invalid choice. Try again."] w)
  end.
Proof. destruct stdin; reflexivity. Qed.

(** Whatever the input, the loop only ever prints, adds, summarises,
    filters, reports and charts, and each choice it takes is a line of the
    input. *)
Lemma menu_loop_evolves (stdin : list string) (w0 w : World) (cs : list string) :
  evolves w0 cs w ->
  exists cs',
    evolves w0 cs' (final (menu_loop stdin w)) /\
    (forall c, In c cs' -> In c cs \/ In c stdin).
Proof.
  remember (List.length stdin) as n eqn:Hn.
  revert stdin w cs Hn.
  induction n as [n IH] using (well_founded_induction Wf_nat.lt_wf).
  intros stdin w cs Hn Hw. rewrite menu_loop_eq. cbv zeta.
  pose proof (ev_say w0 cs w menu Hw) as Hm.
  assert (Hstop : forall ls,
            exists cs',
              evolves w0 cs' (say ls (say menu w)) /\
              (forall c, In c cs' -> In c cs \/ In c stdin)).
  { intros ls. exists cs. split; [apply ev_say; exact Hm | auto]. }
  destruct stdin as [| choice stdin];
    [exists cs; split; [exact Hm | auto] |].
  simpl in Hn.
  assert (Hnext : forall rest c' w',
            (List.length rest <= List.length stdin)%nat ->
            incl rest stdin ->
            c' = choice ->
            evolves w0 (c' :: cs) w' ->
            exists cs',
              evolves w0 cs' (final (menu_loop rest w')) /\
              (forall c, In c cs' -> In c cs \/ In c (choice :: stdin))).
  { intros rest c' w' Hlen Hincl -> Hw'.
    destruct (IH (List.length rest) ltac:(lia) rest w' (choice :: cs) eq_refl Hw')
      as (cs' & Hev & Hin).
    exists cs'. split; [exact Hev |].
    intros c Hc. destruct (Hin c Hc) as [[<- | Hc'] | Hc'];
      simpl; auto; right; right; apply Hincl; exact Hc'. }
  destruct (String.eqb_spec choice "1") as [E | _].
  { destruct stdin as [| date [| amount [| category [| description stdin]]]];
      try apply Hstop.
    apply (Hnext stdin "1"); [simpl; lia | | auto |].
    - intros x Hx. simpl. auto.
    - apply ev_add. apply ev_say. exact Hm. }
  destruct (String.eqb_spec choice "2") as [E | _].
  { apply (Hnext stdin "2"); [lia | apply incl_refl | auto |].
    apply ev_summary. exact Hm. }
  destruct (String.eqb_spec choice "3") as [E | _].
  { destruct stdin as [| category [| start_date [| end_date [| min_amount stdin]]]];
      try apply Hstop.
    cbv zeta. destruct (filter_expenses_raises _ _ _ _ _); [apply Hstop |].
    apply (Hnext stdin "3"); [simpl; lia | | auto |].
    - intros x Hx. simpl. auto.
    - apply ev_filter. apply ev_say. exact Hm. }
  destruct (String.eqb_spec choice "4") as [E | _].
  { destruct (generate_report_raises _); [exists cs; split; [exact Hm | auto] |].
    apply (Hnext stdin "4"); [lia | apply incl_refl | auto |].
    apply ev_report. exact Hm. }
  destruct (String.eqb_spec choice "5") as [E | _].
  { destruct (visualize_expenses (say menu w)) as [w' | w'] eqn:Hv.
    - apply visualize_expenses_raises in Hv. subst w'.
      exists cs. split; [exact Hm | auto].
    - apply (Hnext stdin "5"); [lia | apply incl_refl | auto |].
      eapply ev_chart; eassumption. }
  destruct (String.eqb_spec choice "6") as [E | _].
  { destruct (Hstop [Text "Exiting program..."]) as (cs' & Hev & Hin).
    exists cs'. split; [exact Hev |].
    intros c Hc. destruct (Hin c Hc); auto. }
  destruct (IH (List.length stdin) ltac:(lia) stdin
              (say [Text "Invalid choice. Try again."] (say menu w)) cs eq_refl
              (ev_say w0 cs _ _ Hm)) as (cs' & Hev & Hin).
  exists cs'. split; [exact Hev |].
  intros c Hc. destruct (Hin c Hc); simpl; auto.
Qed.

Lemma acceptable_of_row_ok (r : Expense) :
  row_ok r = true -> acceptable r = true.
Proof.
  unfold row_ok, acceptable. intros H.
  apply andb_true_iff in H as [Hpos Hcat].
  rewrite Hcat, (positive_not_leb_zero _ Hpos). reflexivity.
Qed.

Lemma add_expense_step t date amount category description :
  let t' := add_expense t date amount category description in
  (df t' = df t /\ disk t' = disk t)
  \/ (exists r, acceptable r = true /\ df t' = df t ++ [r] /\ in_sync t').
Proof.
  intros t'. subst t'.
  destruct (add_expense_cases t date amount category description)
    as [[l [_ ->]] | (d & a & _ & _ & Hpos & Hcat & ->)].
  - left. split; reflexivity.
  - right. exists (admitted d a category description).
    unfold acceptable, admitted, in_sync. cbn [df disk Amount Category].
    rewrite Hpos, Hcat. repeat split.
Qed.

Lemma get_summary_frame t :
  df (get_summary t) = df t /\ disk (get_summary t) = disk t.
Proof.
  unfold get_summary. destruct (df t) eqn:E; [split; auto |].
  rewrite <- E. apply print_all_frame.
Qed.

Lemma generate_report_frame t :
  df (generate_report t) = df t /\ disk (generate_report t) = disk t.
Proof.
  unfold generate_report. destruct (df t) eqn:E; [split; auto |].
  rewrite <- E. destruct (has_dt _); [apply print_all_frame | split; reflexivity].
Qed.

Lemma filter_expenses_frame t category start_date end_date min_amount :
  df (filter_expenses t category start_date end_date min_amount) = df t /\
  disk (filter_expenses t category start_date end_date min_amount) = disk t.
Proof.
  unfold filter_expenses.
  destruct (filtered t category start_date end_date min_amount)
    as [[e | e] | [| r rows]]; split; reflexivity.
Qed.

Lemma visualize_expenses_returns (w w' : World) :
  visualize_expenses w = inr w' ->
  df (tracker w') = df (tracker w) /\ disk (tracker w') = disk (tracker w).
Proof.
  unfold visualize_expenses. destruct (df (tracker w)) eqn:E.
  - intros [= <-]. destruct (say_frame [Text "No data to visualize."] w)
      as (-> & -> & _). rewrite E. auto.
  - destruct (_ && _); [| discriminate]. intros [= <-].
    match goal with
    | |- context [say ?ls ?x] => destruct (say_frame ls x) as (-> & -> & _)
    end.
    simpl. rewrite E. auto.
Qed.

(** What a run does to the table and the CSV file: rows are only ever
    appended, each of them acceptable, and the file is rewritten from the
    table at every append. *)
Lemma evolves_data (w0 w : World) (cs : list string) :
  evolves w0 cs w ->
  exists added,
    df (tracker w) = df (tracker w0) ++ added /\
    Forall (fun r => acceptable r = true) added /\
    ((added = [] /\ disk (tracker w) = disk (tracker w0))
     \/ in_sync (tracker w)).
Proof.
  assert (Hsame : forall w1 w2 : World,
            df (tracker w2) = df (tracker w1) /\
            disk (tracker w2) = disk (tracker w1) ->
            (exists added,
               df (tracker w1) = df (tracker w0) ++ added /\
               Forall (fun r => acceptable r = true) added /\
               ((added = [] /\ disk (tracker w1) = disk (tracker w0))
                \/ in_sync (tracker w1))) ->
            exists added,
              df (tracker w2) = df (tracker w0) ++ added /\
              Forall (fun r => acceptable r = true) added /\
              ((added = [] /\ disk (tracker w2) = disk (tracker w0))
               \/ in_sync (tracker w2))).
  { intros w1 w2 [Hdf Hdisk] (added & H1 & H2 & H3).
    exists added. unfold in_sync in *. rewrite Hdf, Hdisk. auto. }
  induction 1 as [| cs w ls _ IH | cs w date amount category description _ IH
                  | cs w _ IH | cs w c s e m _ IH | cs w _ IH
                  | cs w w' _ IH Hv].
  - exists []. rewrite app_nil_r. auto.
  - apply (Hsame w); [| exact IH].
    destruct (say_frame ls w) as (-> & -> & _). auto.
  - destruct (add_expense_step (tracker w) (PyStr date) (PyStr amount)
                category description) as [Hs | (r & Hr & Hdf & Hsync)].
    + apply (Hsame w); [exact Hs | exact IH].
    + destruct IH as (added & H1 & H2 & _).
      exists (added ++ [r]). cbn [tracker on_tracker].
      rewrite Hdf, H1, app_assoc.
      split; [reflexivity |]. split; [| right; exact Hsync].
      apply Forall_app. auto.
  - apply (Hsame w); [apply get_summary_frame | exact IH].
  - apply (Hsame w); [apply filter_expenses_frame | exact IH].
  - apply (Hsame w); [apply generate_report_frame | exact IH].
  - apply (Hsame w); [exact (visualize_expenses_returns _ _ Hv) | exact IH].
Qed.

(** Without choice 1 nothing touches the table or the CSV file; without
    choice 5 nothing touches the image. *)
Lemma evolves_without (w0 w : World) (cs : list string) :
  evolves w0 cs w ->
  (~ In "1" cs ->
   df (tracker w) = df (tracker w0) /\ disk (tracker w) = disk (tracker w0))
  /\ (~ In "5" cs -> png w = png w0).
Proof.
  induction 1 as [| cs w ls _ IH | cs w date amount category description _ IH
                  | cs w _ IH | cs w c s e m _ IH | cs w _ IH
                  | cs w w' _ IH Hv];
    try (destruct IH as [IH1 IH5]).
  - auto.
  - destruct (say_frame ls w) as (-> & -> & ->). auto.
  - split; [intros Hn; exfalso; apply Hn; simpl; auto |].
    intros Hn. apply IH5. simpl in Hn. tauto.
  - destruct (get_summary_frame (tracker w)) as [Hd Hk].
    cbn [tracker on_tracker png]. rewrite Hd, Hk.
    split; intros Hn; [apply IH1 | apply IH5]; simpl in Hn; tauto.
  - destruct (filter_expenses_frame (tracker w) c s e m) as [Hd Hk].
    cbn [tracker on_tracker png]. rewrite Hd, Hk.
    split; intros Hn; [apply IH1 | apply IH5]; simpl in Hn; tauto.
  - destruct (generate_report_frame (tracker w)) as [Hd Hk].
    cbn [tracker on_tracker png]. rewrite Hd, Hk.
    split; intros Hn; [apply IH1 | apply IH5]; simpl in Hn; tauto.
  - destruct (visualize_expenses_returns _ _ Hv) as [Hd Hk]. rewrite Hd, Hk.
    split; [intros Hn; apply IH1; simpl in Hn; tauto |].
    intros Hn. exfalso. apply Hn. simpl. auto.
Qed.

(** What the constructor leaves: the rows of the file that pass the mask,
    and the file as found; when it raises, an empty table. *)
Lemma init_cases (csv : option file) :
  (exists t, init csv = Returned t /\ df t = loaded csv /\ disk t = csv)
  \/ (exists e t, init csv = Raised e t /\ df t = [] /\ disk t = csv
                  /\ loaded csv = []).
Proof.
  unfold init, load_data, loaded. cbn [disk stdout].
  destruct (read_csv csv) as [e | rows].
  - destruct e; [left; eexists; repeat split | ..];
      right; do 2 eexists; repeat split.
  - left. destruct (_ =? 0)%nat; eexists; repeat split.
Qed.

(** The state a run of [main] ends in, reached from the loaded table. *)
Lemma main_evolves (csv : option file) (image : option Figure)
    (stdin : list string) :
  exists t0 cs,
    df t0 = loaded csv /\ disk t0 = csv /\
    evolves (mkWorld t0 image) cs (final (main csv image stdin)) /\
    (forall c, In c cs -> In c stdin).
Proof.
  unfold main.
  destruct (init_cases csv) as [(t & -> & Hdf & Hdisk)
                               | (e & t & -> & Hdf & Hdisk & Hl)].
  - destruct (menu_loop_evolves stdin (mkWorld t image) (mkWorld t image) []
                (ev_start _)) as (cs & Hev & Hin).
    exists t, cs. repeat split; auto.
    intros c Hc. destruct (Hin c Hc) as [[] | ?]; assumption.
  - exists t, []. simpl. repeat split; try congruence; [constructor | tauto].
Qed.

(** X2. Append-only: whatever is typed, the rows the program loaded at the
    start are still there at the end of the run, in their order and at the
    head of the table; a run only ever adds rows after them. *)
Theorem session_append_only (csv : option file) (image : option Figure)
    (stdin : list string) :
  exists added,
    df (tracker (final (main csv image stdin))) = loaded csv ++ added.
Proof.
  destruct (main_evolves csv image stdin) as (t0 & cs & Hdf & _ & Hev & _).
  destruct (evolves_data _ _ _ Hev) as (added & H & _).
  exists added. rewrite H. simpl. rewrite Hdf. reflexivity.
Qed.

Lemma main_rows_acceptable (csv : option file) (image : option Figure)
    (stdin : list string) :
  forall r, In r (df (tracker (final (main csv image stdin)))) ->
            acceptable r = true.
Proof.
  destruct (main_evolves csv image stdin) as (t0 & cs & Hdf & _ & Hev & _).
  destruct (evolves_data _ _ _ Hev) as (added & -> & Hadded & _).
  intros r Hr. apply in_app_or in Hr as [Hr | Hr].
  - simpl in Hr. rewrite Hdf in Hr. unfold loaded in Hr.
    destruct (read_csv csv) as [e | rows]; [contradiction |].
    apply filter_In in Hr as [_ Hr]. apply acceptable_of_row_ok. exact Hr.
  - rewrite Forall_forall in Hadded. auto.
Qed.

(** X3. Table invariant: at the end of every run each row of the table has
    one of the four categories and an amount that the test [amount <= 0]
    does not turn down, so an amount above zero or NaN. *)
Theorem session_rows_acceptable (csv : option file) (image : option Figure)
    (stdin : list string) :
  Forall (fun r =>
            isin (Category r) categories = true /\
            (Amount r <=? 0)%float = false /\
            ((0 <? Amount r)%float = true \/ is_nan (Amount r) = true))
         (df (tracker (final (main csv image stdin)))).
Proof.
  apply Forall_forall. intros r Hr.
  pose proof (main_rows_acceptable csv image stdin r Hr) as H.
  unfold acceptable in H. apply andb_true_iff in H as [Hcat Hpos].
  apply negb_true_iff in Hpos. auto using not_leb_zero.
Qed.

(** X4. The file is never stale: at the end of every run either the table
    is the one loaded and the CSV file is as it was found, or the CSV file
    holds exactly the table in memory. *)
Theorem session_file_current (csv : option file) (image : option Figure)
    (stdin : list string) :
  let t := tracker (final (main csv image stdin)) in
  (df t = loaded csv /\ disk t = csv) \/ in_sync t.
Proof.
  destruct (main_evolves csv image stdin) as (t0 & cs & Hdf & Hdisk & Hev & _).
  destruct (evolves_data _ _ _ Hev) as (added & H & _ & [[-> Hk] | Hs]).
  - left. simpl in *. rewrite H, Hk, app_nil_r. auto.
  - right. exact Hs.
Qed.

(** X5. A run in which the line [1] is never typed leaves the table as
    loaded and the CSV file as found. *)
Theorem session_without_add (csv : option file) (image : option Figure)
    (stdin : list string) :
  ~ In "1" stdin ->
  df (tracker (final (main csv image stdin))) = loaded csv /\
  disk (tracker (final (main csv image stdin))) = csv.
Proof.
  intros Hn.
  destruct (main_evolves csv image stdin) as (t0 & cs & Hdf & Hdisk & Hev & Hin).
  destruct (evolves_without _ _ _ Hev) as [H _].
  destruct H as [-> ->]; [intros Hc; apply Hn, Hin, Hc |].
  simpl. auto.
Qed.

(** X6. A run in which the line [5] is never typed leaves the image file
    as found. *)
Theorem session_without_chart (csv : option file) (image : option Figure)
    (stdin : list string) :
  ~ In "5" stdin ->
  png (final (main csv image stdin)) = image.
Proof.
  intros Hn.
  destruct (main_evolves csv image stdin) as (t0 & cs & _ & _ & Hev & Hin).
  destruct (evolves_without _ _ _ Hev) as [_ H].
  rewrite H; [reflexivity |]. intros Hc. apply Hn, Hin, Hc.
Qed.

(** X7. The loop ends normally only on the line [6]: a run that exits has
    read that line and printed the farewell last. *)
Theorem menu_loop_exits_on_six (stdin : list string) (w w' : World) :
  menu_loop stdin w = Exited w' ->
  In "6" stdin /\
  exists out, stdout (tracker w') = out ++ [Text "Exiting program..."].
Proof.
  remember (List.length stdin) as n eqn:Hn.
  revert stdin w Hn.
  induction n as [n IH] using (well_founded_induction Wf_nat.lt_wf).
  intros stdin w Hn. rewrite menu_loop_eq. cbv zeta.
  destruct stdin as [| choice stdin]; [discriminate |].
  simpl in Hn.
  assert (Hnext : forall rest w1,
            (List.length rest <= List.length stdin)%nat ->
            incl rest stdin ->
            menu_loop rest w1 = Exited w' ->
            In "6" (choice :: stdin) /\
            exists out, stdout (tracker w') = out ++ [Text "Exiting program..."]).
  { intros rest w1 Hlen Hincl Hexit.
    destruct (IH (List.length rest) ltac:(lia) rest w1 eq_refl Hexit) as [Hin Hout].
    split; [right; apply Hincl; exact Hin | exact Hout]. }
  destruct (String.eqb_spec choice "1") as [E | _].
  { destruct stdin as [| date [| amount [| category [| description stdin]]]];
      try discriminate.
    apply Hnext; [simpl; lia |]. intros x Hx. simpl. auto. }
  destruct (String.eqb_spec choice "2") as [E | _];
    [apply Hnext; [lia | apply incl_refl] |].
  destruct (String.eqb_spec choice "3") as [E | _].
  { destruct stdin as [| category [| start_date [| end_date [| min_amount stdin]]]];
      try discriminate.
    cbv zeta. destruct (filter_expenses_raises _ _ _ _ _); [discriminate |].
    apply Hnext; [simpl; lia |]. intros x Hx. simpl. auto. }
  destruct (String.eqb_spec choice "4") as [E | _];
    [destruct (generate_report_raises _);
     [discriminate | apply Hnext; [lia | apply incl_refl]] |].
  destruct (String.eqb_spec choice "5") as [E | _].
  { destruct (visualize_expenses (say menu w)) as [w1 | w1];
      [discriminate | apply Hnext; [lia | apply incl_refl]]. }
  destruct (String.eqb_spec choice "6") as [E | _].
  { intros [= <-]. split; [left; auto |].
    unfold say, on_tracker. cbn [tracker]. rewrite print_all_stdout.
    eexists. reflexivity. }
  apply Hnext; [lia | apply incl_refl].
Qed.

End Sessions.

(** ** Loading *)

Section Loading.
Context {lib : Pandas}.

(** X9. Loading is idempotent: loading again, with nothing appended in
    between, returns the same table and leaves the same file. *)
Theorem load_data_twice (t t1 : Tracker) :
  load_data t = Returned t1 ->
  exists t2,
    load_data t1 = Returned t2 /\ df t2 = df t1 /\ disk t2 = disk t1.
Proof.
  unfold load_data.
  destruct (read_csv (disk t)) as [e | rows] eqn:Hread.
  - destruct e; try discriminate. intros [= <-]. cbn [disk].
    rewrite Hread. eexists. repeat split.
  - intros H.
    assert (Hd : disk t1 = disk t /\ df t1 = filter row_ok rows).
    { destruct (_ =? 0)%nat; injection H as <-; auto. }
    destruct Hd as [-> ->]. rewrite Hread.
    destruct (_ =? 0)%nat; eexists; repeat split.
Qed.

End Loading.

Lemma load_data_twice_witness :
  exists t2,
    load_data (lib := fragment) (mkTracker scenario (Some (Csv scenario)) [])
      = Returned t2 /\
    df t2 = df (mkTracker scenario (Some (Csv scenario)) []) /\
    disk t2 = disk (mkTracker scenario (Some (Csv scenario)) []).
Proof.
  apply (load_data_twice (lib := fragment) (mkTracker [] (Some (Csv scenario)) [])
           (mkTracker scenario (Some (Csv scenario)) [])).
  reflexivity.
Defined.

(** ** Charts *)

Section Charts.
Context {lib : Pandas} {plt : Pyplot}.

(** X10. [visualize_expenses] keeps its hands off the data: on every path
    the table and the CSV file are as before; on an empty table it saves
    no image and only prints that there is nothing to show; and when a
    drawing call raises, nothing at all has changed. *)
Theorem visualize_expenses_keeps_data (w : World) :
  match visualize_expenses w with
  | inl w' => w' = w
  | inr w' =>
      df (tracker w') = df (tracker w) /\
      disk (tracker w') = disk (tracker w) /\
      (df (tracker w) = [] ->
       png w' = png w /\
       stdout (tracker w') = stdout (tracker w) ++ [Text "No data to visualize."])
  end.
Proof.
  destruct (visualize_expenses w) as [w' | w'] eqn:Hv.
  - exact (visualize_expenses_raises _ _ Hv).
  - destruct (visualize_expenses_returns _ _ Hv) as [Hd Hk].
    split; [exact Hd |]. split; [exact Hk |].
    intros Hempty. unfold visualize_expenses in Hv. rewrite Hempty in Hv.
    injection Hv as <-. split; reflexivity.
Qed.

(** X11. The charts agree with the text views: when an image is saved, its
    bars and its pie wedges are the category totals that [get_summary]
    prints, its line is the monthly totals that [generate_report] prints,
    and its histogram is fed the amount of every row of the table. *)
Theorem charts_agree_with_views (w w' : World) :
  df (tracker w) <> [] ->
  visualize_expenses w = inr w' ->
  exists fig,
    png w' = Some fig /\
    pie_wedges fig = bar_heights fig /\
    hist_values fig = map Amount (df (tracker w)) /\
    stdout (get_summary (tracker w))
      = stdout (tracker w)
        ++ [Text "Expense Summary:";
            Money "Total Expenses" (np_sum (map Amount (df (tracker w))));
            Money "Average Expense" (np_mean (map Amount (df (tracker w))));
            Text "";
            Text "Expenses by Category:"]
        ++ map (fun ca => Money (fst ca) (snd ca)) (bar_heights fig) /\
    exists top,
      stdout (generate_report (tracker w))
        = stdout (tracker w)
          ++ [Text "Expense Report";
              Text "==============================";
              Money "Total Expenses" (np_sum (map Amount (df (tracker w))));
              TopCategory top;
              Text "";
              Text "Monthly Spending:"]
          ++ map (fun ma => Monthly (fst ma) (snd ma)) (line_points fig).
Proof.
  intros Hne Hv. unfold visualize_expenses in Hv.
  unfold get_summary, generate_report.
  destruct (df (tracker w)) as [| r rows] eqn:E; [contradiction |].
  destruct (has_dt _) eqn:Hdt; [| discriminate].
  destruct (draws _); [| discriminate]. injection Hv as <-.
  eexists. split; [reflexivity |]. cbn [pie_wedges bar_heights hist_values line_points].
  repeat split.
  - rewrite print_all_stdout. reflexivity.
  - eexists. rewrite print_all_stdout. reflexivity.
Qed.

End Charts.

Lemma charts_agree_with_views_witness :
  exists fig,
    png (mkWorld (print (Text "Charts saved as expense_dashboard.png")
                    (mkTracker scenario None []))
           (Some (mkFigure [("Food", 30%float); ("Transport", 5%float)]
                    [(0%nat, (35%float, 30%float)); (1%nat, (10%float, 5%float))]
                    [((2024, 1)%Z, 15%float); ((2024, 2)%Z, 20%float)]
                    [(0%nat, (20%float, 15%float)); (1%nat, (25%float, 20%float))]
                    [("Food", 30%float); ("Transport", 5%float)]
                    [10%float; 20%float; 5%float]))) = Some fig /\
    pie_wedges fig = bar_heights fig /\
    hist_values fig = map Amount (df (tracker (mkWorld (mkTracker scenario None []) None))) /\
    stdout (get_summary (lib := fragment) (tracker (mkWorld (mkTracker scenario None []) None)))
      = stdout (tracker (mkWorld (mkTracker scenario None []) None))
        ++ [Text "Expense Summary:";
            Money "Total Expenses" (np_sum (Pandas := fragment) (map Amount scenario));
            Money "Average Expense" (np_mean (Pandas := fragment) (map Amount scenario));
            Text "";
            Text "Expenses by Category:"]
        ++ map (fun ca => Money (fst ca) (snd ca)) (bar_heights fig) /\
    exists top,
      stdout (generate_report (lib := fragment) (tracker (mkWorld (mkTracker scenario None []) None)))
        = stdout (tracker (mkWorld (mkTracker scenario None []) None))
          ++ [Text "Expense Report";
              Text "==============================";
              Money "Total Expenses" (np_sum (Pandas := fragment) (map Amount scenario));
              TopCategory top;
              Text "";
              Text "Monthly Spending:"]
          ++ map (fun ma => Monthly (fst ma) (snd ma)) (line_points fig).
Proof.
  apply (charts_agree_with_views (lib := fragment) (plt := always_draws)
           (mkWorld (mkTracker scenario None []) None)).
  - discriminate.
  - reflexivity.
Defined.

(** ** Grouping *)

Section GroupKeys.
Context {K : Type} (key_eqb key_ltb : K -> K -> bool).
Hypothesis key_eqb_eq : forall a b, key_eqb a b = true <-> a = b.
Hypothesis key_ltb_irrefl : forall a, key_ltb a a = false.
Hypothesis key_ltb_trans :
  forall a b c, key_ltb a b = true -> key_ltb b c = true -> key_ltb a c = true.
Hypothesis key_ltb_total :
  forall a b, key_eqb a b = false -> key_ltb a b = false -> key_ltb b a = true.

Lemma insert_key_In (k x : K) (ks : list K) :
  In x (insert_key key_eqb key_ltb k ks) <-> x = k \/ In x ks.
Proof.
  induction ks as [| a ks IH]; simpl; [intuition |].
  destruct (key_eqb k a) eqn:E.
  - apply key_eqb_eq in E. subst a. simpl. intuition.
  - destruct (key_ltb k a); simpl; [intuition |].
    rewrite IH. intuition.
Qed.

Lemma insert_key_ascending (k : K) (ks : list K) :
  ascending key_ltb ks -> ascending key_ltb (insert_key key_eqb key_ltb k ks).
Proof.
  induction ks as [| a ks IH]; simpl; [intros _; split; [constructor | exact I] |].
  intros [Hall Hasc].
  destruct (key_eqb k a) eqn:E; [simpl; auto |].
  destruct (key_ltb k a) eqn:L; simpl.
  - split; [| auto]. constructor; [exact L |].
    apply Forall_forall. intros x Hx.
    apply (key_ltb_trans k a x L). revert x Hx. apply Forall_forall. exact Hall.
  - split; [| apply IH; exact Hasc].
    apply Forall_forall. intros x Hx. apply insert_key_In in Hx as [-> | Hx].
    + apply key_ltb_total; assumption.
    + revert x Hx. apply Forall_forall. exact Hall.
Qed.

Lemma group_keys_spec (ks : list K) :
  ascending key_ltb (group_keys key_eqb key_ltb ks) /\
  forall x, In x (group_keys key_eqb key_ltb ks) <-> In x ks.
Proof.
  unfold group_keys.
  assert (H : forall acc,
            ascending key_ltb acc ->
            ascending key_ltb
              (fold_left (fun acc k => insert_key key_eqb key_ltb k acc) ks acc) /\
            forall x,
              In x (fold_left (fun acc k => insert_key key_eqb key_ltb k acc) ks acc)
              <-> In x ks \/ In x acc).
  { induction ks as [| k ks IH]; intros acc Hacc; simpl; [intuition |].
    destruct (IH (insert_key key_eqb key_ltb k acc)
                (insert_key_ascending k acc Hacc)) as [Hasc Hin].
    split; [exact Hasc |]. intros x. rewrite Hin, insert_key_In. intuition. }
  destruct (H [] I) as [Hasc Hin]. split; [exact Hasc |].
  intros x. rewrite Hin. simpl. intuition.
Qed.

Lemma ascending_NoDup (ks : list K) : ascending key_ltb ks -> NoDup ks.
Proof.
  induction ks as [| k ks IH]; simpl; [constructor |].
  intros [Hall Hasc]. constructor; [| auto].
  intros Hin. rewrite Forall_forall in Hall. specialize (Hall k Hin).
  rewrite key_ltb_irrefl in Hall. discriminate.
Qed.

Lemma present_keys_In (key : Expense -> option K) (rows : list Expense) (k : K) :
  In k (present_keys key rows) <-> exists r, In r rows /\ key r = Some k.
Proof.
  unfold present_keys. rewrite in_flat_map. split.
  - intros (r & Hr & Hk). exists r. split; [exact Hr |].
    destruct (key r); simpl in Hk; [| contradiction].
    destruct Hk as [-> | []]. reflexivity.
  - intros (r & Hr & Hk). exists r. rewrite Hk. simpl. auto.
Qed.

(** What a [groupby(...).sum()] holds: its labels ascend strictly, so none
    comes twice; they are the keys found in the rows; and each total is the
    sum of the amounts filed under its label, in the order of the table. *)
Lemma groupby_sum_spec (sum : list float -> float) (key : Expense -> option K)
    (rows : list Expense) :
  let totals := groupby_sum key_eqb key_ltb sum key rows in
  ascending key_ltb (map fst totals) /\
  NoDup (map fst totals) /\
  (forall k, In k (map fst totals) <-> exists r, In r rows /\ key r = Some k) /\
  (forall k v, In (k, v) totals -> v = sum (amounts_of key_eqb key k rows)).
Proof.
  intros totals.
  assert (Hfst : map fst totals = group_keys key_eqb key_ltb (present_keys key rows)).
  { subst totals. unfold groupby_sum. rewrite map_map. simpl. apply map_id. }
  destruct (group_keys_spec (present_keys key rows)) as [Hasc Hin].
  rewrite Hfst. split; [exact Hasc |]. split; [exact (ascending_NoDup _ Hasc) |].
  split.
  - intros k. rewrite Hin. apply present_keys_In.
  - intros k v Hkv. subst totals. unfold groupby_sum in Hkv.
    apply in_map_iff in Hkv as (k' & [= <- <-] & _). reflexivity.
Qed.






Lemma idxmax_from_In (best : K * float) (l : list (K * float)) :
  In (idxmax_from best l) (fst best :: map fst l).
Proof.
  revert best. induction l as [| kv l IH]; intros best; simpl; [auto |].
  destruct (snd best <? snd kv)%float.
  - right. apply IH.
  - destruct (IH best) as [H | H]; simpl; auto.
Qed.

Lemma idxmax_In (l : list (K * float)) (k : K) :
  idxmax l = Some k -> In k (map fst l).
Proof.
  unfold idxmax.
  destruct (filter _ l) as [| b rest] eqn:E; [discriminate |].
  intros [= <-].
  assert (Hsub : forall x, In x (map fst (b :: rest)) -> In x (map fst l)).
  { intros x Hx. apply in_map_iff in Hx as (kv & <- & Hkv).
    apply in_map. rewrite <- E in Hkv. apply filter_In in Hkv. tauto. }
  apply Hsub. apply (idxmax_from_In b rest).
Qed.

End GroupKeys.

(** The order on category names and on months. *)

Lemma ascii_compare_lt_trans (a b c : ascii) :
  Ascii.compare a b = Lt -> Ascii.compare b c = Lt -> Ascii.compare a c = Lt.
Proof.
  unfold Ascii.compare. rewrite !N.compare_lt_iff. apply N.lt_trans.
Qed.

Lemma string_compare_lt_trans (a b c : string) :
  String.compare a b = Lt -> String.compare b c = Lt -> String.compare a c = Lt.
Proof.
  revert b c. induction a as [| x a IH]; intros [| y b] [| z c]; simpl;
    try discriminate; try reflexivity.
  destruct (Ascii.compare x y) eqn:Exy; try discriminate;
    destruct (Ascii.compare y z) eqn:Eyz; try discriminate; intros H1 H2.
  - apply Ascii.compare_eq_iff in Exy, Eyz. subst.
    replace (Ascii.compare z z) with Eq
      by (symmetry; unfold Ascii.compare; apply N.compare_refl).
    eapply IH; eassumption.
  - apply Ascii.compare_eq_iff in Exy. subst. rewrite Eyz. reflexivity.
  - apply Ascii.compare_eq_iff in Eyz. subst. rewrite Exy. reflexivity.
  - rewrite (ascii_compare_lt_trans _ _ _ Exy Eyz). reflexivity.
Qed.

Lemma string_compare_refl (a : string) : String.compare a a = Eq.
Proof.
  induction a as [| x a IH]; simpl; [reflexivity |].
  replace (Ascii.compare x x) with Eq
    by (symmetry; unfold Ascii.compare; apply N.compare_refl).
  exact IH.
Qed.

Lemma string_ltb_irrefl (a : string) : String.ltb a a = false.
Proof. unfold String.ltb. rewrite string_compare_refl. reflexivity. Qed.

Lemma string_ltb_trans (a b c : string) :
  String.ltb a b = true -> String.ltb b c = true -> String.ltb a c = true.
Proof.
  unfold String.ltb.
  destruct (String.compare a b) eqn:E1; try discriminate.
  destruct (String.compare b c) eqn:E2; try discriminate.
  rewrite (string_compare_lt_trans _ _ _ E1 E2). reflexivity.
Qed.

Lemma string_ltb_total (a b : string) :
  String.eqb a b = false -> String.ltb a b = false -> String.ltb b a = true.
Proof.
  unfold String.ltb. rewrite (String.compare_antisym a b).
  intros Hne. destruct (String.compare b a) eqn:E; simpl; try discriminate; auto.
  apply String.compare_eq_iff in E. subst. rewrite String.eqb_refl in Hne.
  discriminate.
Qed.

Lemma period_eqb_eq (a b : Z * Z) : period_eqb a b = true <-> a = b.
Proof.
  unfold period_eqb. destruct a as [y m], b as [y' m']. simpl.
  rewrite andb_true_iff, !Z.eqb_eq. split; [intros [-> ->]; reflexivity |].
  intros [= -> ->]. auto.
Qed.

Lemma period_ltb_irrefl (a : Z * Z) : period_ltb a a = false.
Proof.
  unfold period_ltb. rewrite !Z.ltb_irrefl, andb_false_r. reflexivity.
Qed.

Lemma period_ltb_trans (a b c : Z * Z) :
  period_ltb a b = true -> period_ltb b c = true -> period_ltb a c = true.
Proof.
  unfold period_ltb.
  rewrite !orb_true_iff, !andb_true_iff, !Z.ltb_lt, !Z.eqb_eq. lia.
Qed.

Lemma period_ltb_total (a b : Z * Z) :
  period_eqb a b = false -> period_ltb a b = false -> period_ltb b a = true.
Proof.
  unfold period_eqb, period_ltb.
  rewrite !andb_false_iff, !orb_false_iff, !andb_false_iff, orb_true_iff,
    andb_true_iff, !Z.ltb_lt, !Z.ltb_ge, !Z.eqb_eq, !Z.eqb_neq. lia.
Qed.

Section TextViews.
Context {lib : Pandas}.

(** X12. The summary by category: on a table that is not empty,
    [get_summary] prints the total and the mean of all amounts and then one
    line for each category found in the table, none twice, in ascending
    order of the names, each with the sum of the amounts of the rows of that
    category taken in the order of the table. *)
Theorem get_summary_by_category (t : Tracker) :
  df t <> [] ->
  exists totals,
    stdout (get_summary t)
      = stdout t
        ++ [Text "Expense Summary:";
            Money "Total Expenses" (np_sum (map Amount (df t)));
            Money "Average Expense" (np_mean (map Amount (df t)));
            Text "";
            Text "Expenses by Category:"]
        ++ map (fun ca => Money (fst ca) (snd ca)) totals /\
    ascending String.ltb (map fst totals) /\
    NoDup (map fst totals) /\
    (forall c, In c (map fst totals) <-> exists r, In r (df t) /\ Category r = c) /\
    (forall c v, In (c, v) totals ->
       v = group_sum (map Amount (filter (fun r => Category r =? c) (df t)))).
Proof.
  intros Hne.
  exists (groupby_sum String.eqb String.ltb group_sum category_key (df t)).
  destruct (groupby_sum_spec String.eqb String.ltb String.eqb_eq
              string_ltb_irrefl string_ltb_trans string_ltb_total
              group_sum category_key (df t)) as (Hasc & Hnd & Hin & Hsum).
  split; [| split; [exact Hasc | split; [exact Hnd | split]]].
  - unfold get_summary. destruct (df t) eqn:E; [contradiction |].
    rewrite print_all_stdout. reflexivity.
  - intros c. rewrite Hin. unfold category_key.
    split; intros (r & Hr & Hc); exists r; split; congruence.
  - exact Hsum.
Qed.


(** X13. The report by month: on a table that is not empty and whose Date
    column is of a datetime type, [generate_report] returns and prints the
    total, a top category that (when there is one) is the category of some
    row, and then one line for each calendar month in which a row is dated,
    none twice, oldest first, each with the sum of the amounts of that
    month; rows without a date are in no month.  On a Date column that is
    not of a datetime type it prints nothing and the [AttributeError]
    escapes. *)
Theorem generate_report_by_month (t : Tracker) :
  df t <> [] ->
  (has_dt (map Date (df t)) = true ->
   exists top monthly,
     generate_report_raises t = None /\
     stdout (generate_report t)
       = stdout t
         ++ [Text "Expense Report";
             Text "==============================";
             Money "Total Expenses" (np_sum (map Amount (df t)));
             TopCategory top;
             Text "";
             Text "Monthly Spending:"]
         ++ map (fun ma => Monthly (fst ma) (snd ma)) monthly /\
     (forall c, top = Some c -> exists r, In r (df t) /\ Category r = c) /\
     ascending period_ltb (map fst monthly) /\
     NoDup (map fst monthly) /\
     (forall ym, In ym (map fst monthly) <->
        exists r, In r (df t) /\ month_key r = Some ym) /\
     (forall ym v, In (ym, v) monthly ->
        v = group_sum (amounts_of period_eqb month_key ym (df t))))
  /\ (has_dt (map Date (df t)) = false ->
      generate_report_raises t = Some AttributeError /\ generate_report t = t).
Proof.
  intros Hne. split; intros Hdt.
  - exists (idxmax (groupby_sum String.eqb String.ltb group_sum category_key (df t))),
           (groupby_sum period_eqb period_ltb group_sum month_key (df t)).
    destruct (groupby_sum_spec period_eqb period_ltb period_eqb_eq
                period_ltb_irrefl period_ltb_trans period_ltb_total
                group_sum month_key (df t)) as (Hasc & Hnd & Hin & Hsum).
    destruct (groupby_sum_spec String.eqb String.ltb String.eqb_eq
                string_ltb_irrefl string_ltb_trans string_ltb_total
                group_sum category_key (df t)) as (_ & _ & Hcat & _).
    split; [| split; [| split; [| split; [exact Hasc | split; [exact Hnd | split]]]]].
    + unfold generate_report_raises. rewrite Hdt. destruct (df t); reflexivity.
    + unfold generate_report. rewrite Hdt.
      destruct (df t) eqn:E; [contradiction |].
      rewrite print_all_stdout. reflexivity.
    + intros c Htop. apply idxmax_In in Htop. apply Hcat in Htop as (r & Hr & Hc).
      exists r. unfold category_key in Hc. split; congruence.
    + exact Hin.
    + exact Hsum.
  - unfold generate_report_raises, generate_report. rewrite Hdt.
    destruct (df t); [contradiction | split; reflexivity].
Qed.

End TextViews.

(** ** More on filtering *)

Lemma leb_not_nan (x a : float) :
  (x <=? a)%float = true -> is_nan a = false.
Proof.
  rewrite FloatAxioms.leb_spec. unfold SFleb, Prim2SF at 2.
  destruct (is_nan a); [| reflexivity].
  destruct (Prim2SF x); simpl; discriminate.
Qed.

Lemma filter_none {A : Type} (f : A -> bool) (l : list A) :
  (forall x, In x l -> f x = false) -> filter f l = [].
Proof.
  induction l as [| x l IH]; simpl; intros H; [reflexivity |].
  rewrite (H x (or_introl eq_refl)). apply IH. auto.
Qed.

Section MoreFiltering.
Context {lib : Pandas}.

(** X14. Filtering by a category that is not one of the four finds nothing:
    on a table whose rows all carry listed categories (every table of a
    run does), a supplied category outside the list, or one that is not a
    string, gives ["No expenses found."] whenever the other bounds read
    and the date bounds can be compared with the Date column. *)
Theorem filter_unknown_category t category start_date end_date min_amount c :
  Forall (fun r => acceptable r = true) (df t) ->
  supplied category = Some c ->
  (forall s, c = PyStr s -> isin s categories = false) ->
  bounds_read start_date end_date min_amount ->
  bounds_compare t start_date end_date ->
  filter_expenses t category start_date end_date min_amount
    = print (Text "No expenses found.") t.
Proof.
  intros Hrows Hsup Hc Hread Hcmp.
  rewrite (filter_expenses_shown _ _ _ _ _ _
             (filtered_spec_filter t category _ _ _ Hread Hcmp)).
  unfold spec_filter. rewrite filter_none; [reflexivity |].
  intros r Hr. rewrite Forall_forall in Hrows. specialize (Hrows r Hr).
  unfold acceptable in Hrows. apply andb_true_iff in Hrows as [Hlisted _].
  unfold meets_category. rewrite Hsup.
  destruct c as [s | f]; simpl; [| reflexivity].
  destruct (String.eqb_spec (Category r) s) as [E | _]; [| reflexivity].
  rewrite E, (Hc s eq_refl) in Hlisted. discriminate.
Qed.

(** X15. An expense just added is found by its category: after an append
    that was accepted, filtering by the category passed, with no other
    bound, shows the earlier rows of that category followed by the new
    row. *)
Theorem added_expense_is_found t date amount category description d a :
  to_datetime date = Some d ->
  py_float amount = Some a ->
  (a <=? 0)%float = false ->
  isin category categories = true ->
  let t' := add_expense t date amount category description in
  filter_expenses t' (Some (PyStr category)) None None None
  = print (Frame (filter (fun r => Category r =? category) (df t)
                    ++ [admitted d a category description])) t'.
Proof.
  intros Hd Ha Hpos Hcat t'.
  assert (Hsup : supplied (Some (PyStr category)) = Some (PyStr category)).
  { unfold supplied, truthy.
    destruct (String.eqb_spec category "") as [E | _]; [| reflexivity].
    rewrite E in Hcat. discriminate. }
  assert (Hrows : filtered t' (Some (PyStr category)) None None None
                  = inr (filter (fun r => Category r =? category) (df t)
                           ++ [admitted d a category description])).
  { unfold filtered. rewrite Hsup. cbn [supplied truthy]. f_equal.
    subst t'. rewrite (add_expense_accepts t _ _ _ description d a Hd Ha Hpos Hcat).
    cbn [df]. rewrite filter_app. f_equal.
    unfold admitted. cbn [filter category_is Category].
    rewrite String.eqb_refl. reflexivity. }
  unfold filter_expenses. rewrite Hrows.
  destruct (filter _ (df t)); reflexivity.
Qed.

(** X16. A minimum amount hides the rows without one: whenever a supplied
    minimum reads and the filter arrives at a table, every row shown has an
    amount at or above the minimum, and none has NaN for its amount. *)
Theorem min_amount_hides_nan t category start_date end_date min_amount v x rows :
  supplied min_amount = Some v ->
  py_float v = Some x ->
  filtered t category start_date end_date min_amount = inr rows ->
  Forall (fun r => (x <=? Amount r)%float = true /\ is_nan (Amount r) = false) rows.
Proof.
  intros Hsup Hx. unfold filtered. rewrite Hsup, Hx.
  destruct (match supplied start_date with Some _ => _ | None => _ end)
    as [e1 | rows1]; [discriminate |].
  destruct (match supplied end_date with Some _ => _ | None => _ end)
    as [e2 | rows2]; [discriminate |].
  intros [= <-]. apply Forall_forall. intros r Hr.
  apply filter_In in Hr as [_ Hr]. split; [exact Hr | exact (leb_not_nan _ _ Hr)].
Qed.

End MoreFiltering.

(** ** The top category *)

Lemma SFltb_rank (x y : spec_float) :
  x <> S754_nan -> y <> S754_nan ->
  (SFltb x y = true <-> lex_lt (sf_rank x) (sf_rank y)).
Proof.
  intros Hx Hy. unfold SFltb, SFcompare, lex_lt.
  destruct x as [sx | sx | | sx mx ex]; try congruence;
    destruct y as [sy | sy | | sy my ey]; try congruence;
    try destruct sx; try destruct sy; cbn [sf_rank];
    try (split; [intros; try discriminate; lia | intros; try reflexivity; lia]).
  - change (Pos.compare_cont Eq mx my) with (Pos.compare mx my).
    destruct (Z.compare_spec ex ey); [destruct (Pos.compare_spec mx my) | |];
      simpl; (split; [intros; try discriminate; lia | intros; try reflexivity; lia]).
  - change (Pos.compare_cont Eq mx my) with (Pos.compare mx my).
    destruct (Z.compare_spec ex ey); [destruct (Pos.compare_spec mx my) | |];
      simpl; (split; [intros; try discriminate; lia | intros; try reflexivity; lia]).
Qed.

Lemma SFltb_nan_l (y : spec_float) : SFltb S754_nan y = false.
Proof. reflexivity. Qed.

Lemma SFltb_nan_r (x : spec_float) : SFltb x S754_nan = false.
Proof. destruct x; reflexivity. Qed.

Lemma not_nan_Prim2SF (a : float) : is_nan a = false -> Prim2SF a <> S754_nan.
Proof. intros H E. apply Prim2SF_nan in E. congruence. Qed.

Lemma float_ltb_not_nan (a b : float) :
  (a <? b)%float = true -> Prim2SF a <> S754_nan /\ Prim2SF b <> S754_nan.
Proof.
  rewrite FloatAxioms.ltb_spec. intros H. split; intros E; rewrite E in H.
  - rewrite SFltb_nan_l in H. discriminate.
  - rewrite SFltb_nan_r in H. discriminate.
Qed.

Lemma float_ltb_irrefl (a : float) : (a <? a)%float = false.
Proof.
  destruct (a <? a)%float eqn:E; [| reflexivity].
  destruct (float_ltb_not_nan _ _ E) as [Ha _].
  rewrite FloatAxioms.ltb_spec, (SFltb_rank _ _ Ha Ha) in E.
  unfold lex_lt in E. destruct (sf_rank (Prim2SF a)) as [[? ?] ?]. lia.
Qed.

Lemma float_ltb_trans (a b c : float) :
  (a <? b)%float = true -> (b <? c)%float = true -> (a <? c)%float = true.
Proof.
  intros Hab Hbc.
  destruct (float_ltb_not_nan _ _ Hab) as [Ha Hb].
  destruct (float_ltb_not_nan _ _ Hbc) as [_ Hc].
  rewrite FloatAxioms.ltb_spec in *.
  rewrite SFltb_rank in * by assumption. unfold lex_lt in *.
  destruct (sf_rank (Prim2SF a)) as [[? ?] ?],
           (sf_rank (Prim2SF b)) as [[? ?] ?],
           (sf_rank (Prim2SF c)) as [[? ?] ?]. lia.
Qed.

(** Among floats that are not NaN, what is below [c] is below [b] or [b]
    is below [c]. *)
Lemma float_ltb_between (a b c : float) :
  is_nan b = false ->
  (a <? c)%float = true -> (a <? b)%float = true \/ (b <? c)%float = true.
Proof.
  intros Hb Hac. apply not_nan_Prim2SF in Hb.
  destruct (float_ltb_not_nan _ _ Hac) as [Ha Hc].
  rewrite !FloatAxioms.ltb_spec in *.
  rewrite !SFltb_rank in * by assumption. unfold lex_lt in *.
  destruct (sf_rank (Prim2SF a)) as [[? ?] ?],
           (sf_rank (Prim2SF b)) as [[? ?] ?],
           (sf_rank (Prim2SF c)) as [[? ?] ?]. lia.
Qed.

Section IdxMax.
Context {K : Type}.

(** [idxmax_from] returns the first entry that no later entry exceeds and
    that exceeds every earlier one. *)
Lemma idxmax_from_first_largest (best : K * float) (l : list (K * float)) :
  Forall (fun kv => is_nan (snd kv) = false) (best :: l) ->
  exists v pre post,
    best :: l = pre ++ (idxmax_from best l, v) :: post /\
    is_nan v = false /\
    (v <? snd best)%float = false /\
    Forall (fun kv => (snd kv <? v)%float = true) pre /\
    Forall (fun kv => (v <? snd kv)%float = false) post.
Proof.
  revert best. induction l as [| kv l IH]; intros best Hnan.
  - exists (snd best), [], []. destruct best as [k v]. simpl.
    inversion Hnan; subst. simpl in *.
    repeat split; auto using float_ltb_irrefl.
  - inversion Hnan as [| ? ? Hb Hrest]; subst. simpl.
    destruct (snd best <? snd kv)%float eqn:E.
    + destruct (IH kv Hrest) as (v & pre & post & Hdec & Hv & Hkv & Hpre & Hpost).
      assert (Hbv : (snd best <? v)%float = true).
      { destruct (float_ltb_between _ v _ Hv E) as [H | H]; [exact H | congruence]. }
      exists v, (best :: pre), post. rewrite Hdec. simpl.
      repeat split; auto.
      destruct (v <? snd best)%float eqn:E'; [| reflexivity].
      pose proof (float_ltb_trans _ _ _ Hbv E') as H.
      rewrite float_ltb_irrefl in H. discriminate.
    + assert (Hnan' : Forall (fun kv => is_nan (snd kv) = false) (best :: l)).
      { inversion Hrest; subst. constructor; assumption. }
      destruct (IH best Hnan') as (v & pre & post & Hdec & Hv & Hbest & Hpre & Hpost).
      inversion Hrest as [| ? ? Hkvn _]; subst.
      destruct pre as [| p pre].
      * simpl in Hdec. injection Hdec as Hb' Hl.
        assert (Hv' : snd best = v) by exact (f_equal snd Hb').
        exists v, [], (kv :: post). simpl.
        split; [congruence |]. split; [exact Hv |]. split; [exact Hbest |].
        split; [constructor |]. constructor; [| exact Hpost].
        simpl. rewrite <- Hv'. exact E.
      * simpl in Hdec. injection Hdec as Hp Hl. subst p.
        inversion Hpre as [| ? ? Hbv Hpre']; subst.
        exists v, (best :: kv :: pre), post. simpl.
        split; [congruence |]. split; [exact Hv |]. split; [exact Hbest |].
        split; [| exact Hpost].
        constructor; [exact Hbv |]. constructor; [| exact Hpre'].
        destruct (float_ltb_between _ (snd kv) _ Hkvn Hbv) as [H | H];
          [congruence | exact H].
Qed.

End IdxMax.

Lemma ascending_app_later {K : Type} (ltb : K -> K -> bool)
    (pre post : list K) (k x : K) :
  ascending ltb (pre ++ k :: post) -> In x post -> ltb k x = true.
Proof.
  induction pre as [| p pre IH]; simpl.
  - intros [Hall _] Hx. rewrite Forall_forall in Hall. auto.
  - intros [_ Hasc]. auto.
Qed.

Lemma ascending_filter_map {K V : Type} (ltb : K -> K -> bool)
    (f : K * V -> bool) (l : list (K * V)) :
  ascending ltb (map fst l) -> ascending ltb (map fst (filter f l)).
Proof.
  induction l as [| kv l IH]; simpl; [auto |].
  intros [Hall Hasc]. destruct (f kv); simpl; [| auto].
  split; [| auto]. apply Forall_forall. intros x Hx.
  apply in_map_iff in Hx as (kv' & <- & Hkv'). apply filter_In in Hkv' as [Hkv' _].
  rewrite Forall_forall in Hall. apply Hall. apply in_map. exact Hkv'.
Qed.

Section TopCategory.
Context {lib : Pandas}.

(** X17. The top category of the report: when the fourth line of the
    report names a category, its total is not NaN and no category has a
    larger total; and every other category whose total is as large comes
    later in the order of the names. *)
Theorem top_category_is_largest (t : Tracker) (c : string) :
  nth_error (stdout (generate_report t)) (List.length (stdout t) + 3)
    = Some (TopCategory (Some c)) ->
  let totals := groupby_sum String.eqb String.ltb group_sum category_key (df t) in
  exists v,
    In (c, v) totals /\ is_nan v = false /\
    forall c' v',
      In (c', v') totals -> is_nan v' = false ->
      (v <? v')%float = false /\
      ((v' <? v)%float = false -> c' = c \/ String.ltb c c' = true).
Proof.
  intros Hline totals.
  assert (Htop : idxmax totals = Some c).
  { unfold generate_report in Hline. destruct (df t) eqn:E.
    - cbn [print stdout] in Hline.
      rewrite nth_error_app2 in Hline by lia.
      replace (List.length (stdout t) + 3 - List.length (stdout t))%nat with 3%nat
        in Hline by lia.
      discriminate.
    - destruct (has_dt _) in Hline.
      + rewrite print_all_stdout, nth_error_app2 in Hline by lia.
        replace (List.length (stdout t) + 3 - List.length (stdout t))%nat with 3%nat
          in Hline by lia.
        cbn [app nth_error] in Hline. subst totals. try rewrite E. congruence.
      + assert (Hnone : nth_error (stdout t) (List.length (stdout t) + 3) = None)
          by (apply nth_error_None; lia).
        congruence. }
  destruct (groupby_sum_spec String.eqb String.ltb String.eqb_eq
              string_ltb_irrefl string_ltb_trans string_ltb_total
              group_sum category_key (df t)) as (Hasc & _).
  fold totals in Hasc.
  unfold idxmax in Htop.
  pose proof (ascending_filter_map String.ltb
                (fun kv => negb (is_nan (snd kv))) totals Hasc) as Hasc'.
  assert (Hkept : forall kv, In kv (filter (fun kv => negb (is_nan (snd kv))) totals)
                             <-> In kv totals /\ is_nan (snd kv) = false).
  { intros kv. rewrite filter_In, negb_true_iff. tauto. }
  destruct (filter (fun kv => negb (is_nan (snd kv))) totals) as [| b rest] eqn:E;
    [discriminate |].
  injection Htop as Htop.
  assert (Hnan : Forall (fun kv => is_nan (snd kv) = false) (b :: rest)).
  { apply Forall_forall. intros kv Hkv. apply Hkept in Hkv. tauto. }
  destruct (idxmax_from_first_largest b rest Hnan)
    as (v & pre & post & Hdec & Hv & _ & Hpre & Hpost).
  rewrite Htop in Hdec. rewrite Hdec in Hkept, Hasc'.
  exists v. split; [| split; [exact Hv |]].
  - apply (Hkept (c, v)). apply in_or_app. right. left. reflexivity.
  - intros c' v' Hin Hv'.
    assert (Hmem : In (c', v') (pre ++ (c, v) :: post)) by (apply Hkept; auto).
    apply in_app_or in Hmem as [Hmem | [Hmem | Hmem]].
    + rewrite Forall_forall in Hpre. specialize (Hpre _ Hmem). simpl in Hpre.
      split; [| congruence].
      destruct (v <? v')%float eqn:E'; [| reflexivity].
      pose proof (float_ltb_trans _ _ _ Hpre E') as H.
      rewrite float_ltb_irrefl in H. discriminate.
    + injection Hmem as <- <-. split; [apply float_ltb_irrefl | auto].
    + rewrite Forall_forall in Hpost. specialize (Hpost _ Hmem). simpl in Hpost.
      split; [exact Hpost |]. intros _. right.
      rewrite map_app in Hasc'. simpl in Hasc'.
      apply (ascending_app_later String.ltb (map fst pre) (map fst post) c c' Hasc').
      apply (in_map fst) in Hmem. exact Hmem.
Qed.

End TopCategory.

(** ** Across runs *)

Lemma is_nan_Prim2SF (a : float) : is_nan a = true -> Prim2SF a = S754_nan.
Proof. intros H. unfold Prim2SF. rewrite H. reflexivity. Qed.

(** On a row the program let in, the mask of [load_data] fails exactly when
    the amount is NaN. *)
Lemma row_ok_of_acceptable (r : Expense) :
  acceptable r = true -> row_ok r = negb (is_nan (Amount r)).
Proof.
  unfold acceptable, row_ok. intros H.
  apply andb_true_iff in H as [Hcat Hpos]. apply negb_true_iff in Hpos.
  rewrite Hcat, andb_true_r.
  destruct (not_leb_zero _ Hpos) as [H | H].
  - rewrite H. destruct (is_nan (Amount r)) eqn:E; [| reflexivity].
    destruct (float_ltb_not_nan _ _ H) as [_ Hn].
    elim Hn. apply is_nan_Prim2SF. exact E.
  - rewrite H, FloatAxioms.ltb_spec, (is_nan_Prim2SF _ H), SFltb_nan_r. reflexivity.
Qed.

Lemma filter_twice {A : Type} (f : A -> bool) (l : list A) :
  filter f (filter f l) = filter f l.
Proof. apply forallb_filter_id. apply forallb_filter. Qed.

Section AcrossRuns.
Context {lib : Pandas} {plt : Pyplot}.

(** X18. What the next run will load: after any run, if pandas reads the
    file written from the final table back as that table, the rows that
    the constructor would build from the CSV file as left are the rows of
    the final table whose amount is not NaN, in the same order.  Nothing
    else is lost between runs. *)
Theorem next_run_loads_final_table (csv : option file) (image : option Figure)
    (stdin : list string) :
  let t := tracker (final (main csv image stdin)) in
  read_back (df t) = inr (df t) ->
  loaded (disk t) = filter (fun r => negb (is_nan (Amount r))) (df t).
Proof.
  intros t Hback.
  assert (Hmask : loaded (disk t) = filter row_ok (df t)).
  { subst t.
    destruct (main_evolves csv image stdin) as (t0 & cs & Hdf & Hdisk & Hev & _).
    destruct (evolves_data _ _ _ Hev) as (added & H & _ & [[-> Hk] | Hs]).
    - simpl in H, Hk. rewrite H, Hk, app_nil_r, Hdf, Hdisk. unfold loaded.
      destruct (read_csv csv); [reflexivity | symmetry; apply filter_twice].
    - unfold loaded. rewrite Hs. cbn [read_csv]. rewrite Hback. reflexivity. }
  rewrite Hmask. apply filter_ext_in. intros r Hr.
  apply row_ok_of_acceptable.
  exact (main_rows_acceptable csv image stdin r Hr).
Qed.

End AcrossRuns.

Section Purge.
Context {lib : Pandas}.

(** X19. The first append rewrites the file without the rows that loading
    left out: from a table loaded from a file, an accepted append leaves in
    the file the rows that passed the mask of [load_data] followed by the
    new row; the rows that failed it are gone from the file too. *)
Theorem append_purges_dropped_rows t0 t1 rows date amount category description d a :
  read_csv (disk t0) = inr rows ->
  load_data t0 = Returned t1 ->
  to_datetime date = Some d ->
  py_float amount = Some a ->
  (a <=? 0)%float = false ->
  isin category categories = true ->
  disk (add_expense t1 date amount category description)
  = Some (Csv (filter row_ok rows ++ [admitted d a category description])).
Proof.
  intros Hdisk Hload Hd Ha Hpos Hcat.
  rewrite (add_expense_accepts t1 _ _ _ description d a Hd Ha Hpos Hcat).
  cbn [disk]. unfold load_data in Hload. rewrite Hdisk in Hload.
  destruct (_ =? 0)%nat; injection Hload as <-; reflexivity.
Qed.

(** The order of two moments, read off [civil_compare]. *)
Lemma civil_compare_spec (a b : civil) :
  match civil_compare a b with
  | Lt => civil_lt a b
  | Gt => civil_lt b a
  | Eq => ~ civil_lt a b /\ ~ civil_lt b a
  end.
Proof.
  unfold civil_compare, civil_lt.
  destruct (Z.compare_spec (year a) (year b));
    [destruct (Z.compare_spec (month a) (month b));
     [destruct (Z.compare_spec (day a) (day b));
      [destruct (Z.compare_spec (nanos a) (nanos b)) | |] | |] | |];
    lia.
Qed.

Lemma civil_lt_trans (a b c : civil) : civil_lt a b -> civil_lt b c -> civil_lt a c.
Proof. unfold civil_lt. lia. Qed.

Lemma civil_lt_irrefl (a : civil) : ~ civil_lt a a.
Proof. unfold civil_lt. lia. Qed.

Lemma civil_lt_between (a b c : civil) :
  civil_lt a c -> civil_lt a b \/ ~ civil_lt c b.
Proof. unfold civil_lt. lia. Qed.

(** X20. An inverted range finds nothing: when both date bounds are
    supplied and read as zoneless moments with the end before the start,
    and the Date column compares with them, no row passes both, and the
    call prints ["No expenses found."] (the minimum amount reading, if one
    is supplied). *)
Theorem filter_inverted_range t category start_date end_date min_amount
    vs ve s e :
  supplied start_date = Some vs -> to_datetime vs = Some (Ts s) ->
  supplied end_date = Some ve -> to_datetime ve = Some (Ts e) ->
  date_compares (map Date (df t)) (Ts s) = true ->
  date_compares (map Date (df t)) (Ts e) = true ->
  civil_compare e s = Lt ->
  (forall v, supplied min_amount = Some v -> py_float v <> None) ->
  filter_expenses t category start_date end_date min_amount
    = print (Text "No expenses found.") t.
Proof.
  intros Hss Hs Hse He Hzs Hze Hlt Hm.
  assert (Hread : bounds_read start_date end_date min_amount).
  { repeat split; [intros v Hv | intros v Hv | exact Hm]; congruence. }
  assert (Hcmp : bounds_compare t start_date end_date).
  { split; intros v b Hv Hb; congruence. }
  rewrite (filter_expenses_shown _ _ _ _ _ _
             (filtered_spec_filter t category _ _ _ Hread Hcmp)).
  unfold spec_filter. rewrite filter_none; [reflexivity |].
  intros r _. unfold meets_start, meets_end. rewrite Hss, Hs, Hse, He.
  destruct (Date r) as [| c | c o]; simpl;
    [apply andb_false_iff; left; apply andb_false_r |
     | apply andb_false_iff; left; apply andb_false_r].
  pose proof (civil_compare_spec e s) as Hes. rewrite Hlt in Hes.
  pose proof (civil_compare_spec c s) as Hcs.
  pose proof (civil_compare_spec c e) as Hce.
  destruct (civil_compare c s) eqn:E1, (civil_compare c e) eqn:E2;
    rewrite ?andb_false_r, ?andb_true_r; simpl;
    try reflexivity; try (rewrite andb_false_r; reflexivity);
    exfalso; unfold civil_lt in *; lia.
Qed.

End Purge.

Lemma session_without_add_witness :
  df (tracker (final (main (lib := fragment) (plt := always_draws)
                        (Some (Csv scenario)) None ["2"; "5"; "6"]))) =
    loaded (lib := fragment) (Some (Csv scenario)) /\
  disk (tracker (final (main (lib := fragment) (plt := always_draws)
                          (Some (Csv scenario)) None ["2"; "5"; "6"]))) =
    Some (Csv scenario).
Proof.
  apply (session_without_add (lib := fragment) (plt := always_draws)
           (Some (Csv scenario)) None ["2"; "5"; "6"]).
  simpl. intros [H | [H | [H | []]]]; discriminate.
Defined.

Lemma session_without_chart_witness :
  png (final (main (lib := fragment) (plt := always_draws)
                (Some (Csv scenario)) None
                ["1"; "2024-03-15"; "42.50"; "Utilities"; ""; "4"; "6"])) = None.
Proof.
  apply (session_without_chart (lib := fragment) (plt := always_draws)
           (Some (Csv scenario)) None
           ["1"; "2024-03-15"; "42.50"; "Utilities"; ""; "4"; "6"]).
  simpl. intros [H | [H | [H | [H | [H | [H | [H | []]]]]]]]; discriminate.
Defined.

Lemma menu_loop_exits_on_six_witness :
  In "6" ["7"; "2"; "6"; "1"] /\
  exists out,
    stdout (tracker
              (say [Text "Exiting program..."]
                 (say menu
                    (on_tracker (get_summary (lib := fragment))
                       (say menu
                          (say [Text "Invalid choice. Try again."]
                             (say menu (mkWorld fresh None))))))))
    = out ++ [Text "Exiting program..."].
Proof.
  apply (menu_loop_exits_on_six (lib := fragment) (plt := always_draws)
           ["7"; "2"; "6"; "1"] (mkWorld fresh None)).
  reflexivity.
Defined.

Lemma get_summary_by_category_witness :
  exists totals,
    stdout (get_summary (lib := fragment) (mkTracker scenario None []))
      = stdout (mkTracker scenario None [])
        ++ [Text "Expense Summary:";
            Money "Total Expenses"
              (np_sum (Pandas := fragment) (map Amount (df (mkTracker scenario None []))));
            Money "Average Expense"
              (np_mean (Pandas := fragment) (map Amount (df (mkTracker scenario None []))));
            Text "";
            Text "Expenses by Category:"]
        ++ map (fun ca => Money (fst ca) (snd ca)) totals /\
    ascending String.ltb (map fst totals) /\
    NoDup (map fst totals) /\
    (forall c, In c (map fst totals) <->
       exists r, In r (df (mkTracker scenario None [])) /\ Category r = c) /\
    (forall c v, In (c, v) totals ->
       v = group_sum (Pandas := fragment)
             (map Amount (filter (fun r => Category r =? c)
                            (df (mkTracker scenario None []))))).
Proof.
  apply (get_summary_by_category (lib := fragment) (mkTracker scenario None [])).
  discriminate.
Defined.

Lemma generate_report_by_month_witness :
  exists top monthly,
    generate_report_raises (lib := fragment) (mkTracker scenario None []) = None /\
    stdout (generate_report (lib := fragment) (mkTracker scenario None []))
      = stdout (mkTracker scenario None [])
        ++ [Text "Expense Report";
            Text "==============================";
            Money "Total Expenses"
              (np_sum (Pandas := fragment) (map Amount (df (mkTracker scenario None []))));
            TopCategory top;
            Text "";
            Text "Monthly Spending:"]
        ++ map (fun ma => Monthly (fst ma) (snd ma)) monthly /\
    (forall c, top = Some c ->
       exists r, In r (df (mkTracker scenario None [])) /\ Category r = c) /\
    ascending period_ltb (map fst monthly) /\
    NoDup (map fst monthly) /\
    (forall ym, In ym (map fst monthly) <->
       exists r, In r (df (mkTracker scenario None [])) /\ month_key r = Some ym) /\
    (forall ym v, In (ym, v) monthly ->
       v = group_sum (Pandas := fragment)
             (amounts_of period_eqb month_key ym (df (mkTracker scenario None [])))).
Proof.
  apply (generate_report_by_month (lib := fragment) (mkTracker scenario None [])).
  - discriminate.
  - reflexivity.
Defined.

Lemma filter_unknown_category_witness :
  filter_expenses (lib := fragment) (mkTracker scenario None [])
    (Some (PyStr "Rent")) None None None
  = print (Text "No expenses found.") (mkTracker scenario None []).
Proof.
  apply (filter_unknown_category (lib := fragment) (mkTracker scenario None [])
           (Some (PyStr "Rent")) None None None (PyStr "Rent")).
  - repeat constructor.
  - reflexivity.
  - intros s [= <-]. reflexivity.
  - repeat split; intros v [=].
  - split; intros v b [=].
Defined.

Lemma added_expense_is_found_witness :
  let t' := add_expense (lib := fragment) (mkTracker scenario None [])
              (PyStr "2024-03-15") (PyStr "42.50") "Food" "" in
  filter_expenses (lib := fragment) t' (Some (PyStr "Food")) None None None
  = print (Frame (filter (fun r => Category r =? "Food")
                    (df (mkTracker scenario None []))
                    ++ [admitted (Ts (mkCivil 2024 3 15 0)) 42.5%float "Food" ""])) t'.
Proof.
  apply (added_expense_is_found (lib := fragment) (mkTracker scenario None [])
           (PyStr "2024-03-15") (PyStr "42.50") "Food" ""
           (Ts (mkCivil 2024 3 15 0)) 42.5%float); reflexivity.
Defined.

Lemma min_amount_hides_nan_witness :
  Forall (fun r => (0 <=? Amount r)%float = true /\ is_nan (Amount r) = false)
         scenario.
Proof.
  apply (min_amount_hides_nan (lib := fragment)
           (mkTracker (scenario ++ [mkExpense (Ts (mkCivil 2024 1 15 0)) nan "Food" "x"])
              None [])
           None None None (Some (PyStr "0")) (PyStr "0") 0%float scenario);
    reflexivity.
Defined.

Lemma top_category_is_largest_witness :
  let totals :=
    groupby_sum String.eqb String.ltb (group_sum (Pandas := fragment))
      category_key (df (mkTracker scenario None [])) in
  exists v,
    In ("Food", v) totals /\ is_nan v = false /\
    forall c' v',
      In (c', v') totals -> is_nan v' = false ->
      (v <? v')%float = false /\
      ((v' <? v)%float = false -> c' = "Food" \/ String.ltb "Food" c' = true).
Proof.
  apply (top_category_is_largest (lib := fragment) (mkTracker scenario None []) "Food").
  reflexivity.
Defined.

Lemma append_purges_dropped_rows_witness :
  disk (add_expense (lib := fragment)
          (mkTracker scenario
             (Some (Csv (scenario
                           ++ [mkExpense (Ts (mkCivil 2024 3 1 0)) 7 "Rent" "flat"])))
             [Removed 1])
          (PyStr "2024-03-15") (PyStr "42.50") "Utilities" "")
  = Some (Csv (filter row_ok
                 (scenario ++ [mkExpense (Ts (mkCivil 2024 3 1 0)) 7 "Rent" "flat"])
               ++ [admitted (Ts (mkCivil 2024 3 15 0)) 42.5%float "Utilities" ""])).
Proof.
  apply (append_purges_dropped_rows (lib := fragment)
           (mkTracker []
              (Some (Csv (scenario
                            ++ [mkExpense (Ts (mkCivil 2024 3 1 0)) 7 "Rent" "flat"])))
              [])
           (mkTracker scenario
              (Some (Csv (scenario
                            ++ [mkExpense (Ts (mkCivil 2024 3 1 0)) 7 "Rent" "flat"])))
              [Removed 1])
           (scenario ++ [mkExpense (Ts (mkCivil 2024 3 1 0)) 7 "Rent" "flat"])
           (PyStr "2024-03-15") (PyStr "42.50") "Utilities" ""
           (Ts (mkCivil 2024 3 15 0)) 42.5%float); reflexivity.
Defined.

Lemma filter_inverted_range_witness :
  filter_expenses (lib := fragment) (mkTracker scenario None [])
    (Some (PyStr "")) (Some (PyStr "2024-02-01")) (Some (PyStr "2024-01-01"))
    (Some (PyStr ""))
  = print (Text "No expenses found.") (mkTracker scenario None []).
Proof.
  apply (filter_inverted_range (lib := fragment) (mkTracker scenario None [])
           (Some (PyStr "")) (Some (PyStr "2024-02-01")) (Some (PyStr "2024-01-01"))
           (Some (PyStr ""))
           (PyStr "2024-02-01") (PyStr "2024-01-01")
           (mkCivil 2024 2 1 0) (mkCivil 2024 1 1 0)); try reflexivity.
  intros v [=].
Defined.



Lemma next_run_loads_final_table_witness :
  let t :=
    tracker (final (main (lib := fragment) (plt := always_draws)
                      (Some (Csv scenario)) None
                      ["1"; "2024-03-15"; "42.50"; "Utilities"; ""; "6"])) in
  loaded (lib := fragment) (disk t)
  = filter (fun r => negb (is_nan (Amount r))) (df t).
Proof.
  apply (next_run_loads_final_table (lib := fragment) (plt := always_draws)
           (Some (Csv scenario)) None
           ["1"; "2024-03-15"; "42.50"; "Utilities"; ""; "6"]).
  reflexivity.
Defined.
